(** * notebook/nbconvert/handlers.py: the nbconvert HTTP handlers

    A shallow embedding of the Tornado handlers that expose nbconvert as a
    web endpoint, and the properties of the packaging, error mapping and
    resource-descriptor code.

    Python [str] values are Rocq strings; [bytes] are lists of bytes; the
    handler object is a record threaded through a state-and-exception monad.
    The conversion engine, the contents manager and the library routines the
    handlers call (json, nbformat, traitlets, tornado.escape) are fields of
    the records [pylib] and [server]. *)

From Stdlib Require Import ZArith Ascii String List Lia.
From Stdlib.Strings Require Import Byte.
From stdpp Require Import base strings gmap list.

Open Scope string_scope.
Open Scope Z_scope.

(** ** Python string primitives used by the handlers *)

Module Py.

Definition chars (s : string) : list ascii := list_ascii_of_string s.
Definition str (l : list ascii) : string := string_of_list_ascii l.

Definition len (s : string) : Z := Z.of_nat (String.length s).

(** [s.rfind(c)] for a one-character needle: the highest index holding
    [c], or [-1]. *)
Fixpoint rfind_from (c : ascii) (l : list ascii) (i last : Z) : Z :=
  match l with
  | [] => last
  | x :: r => rfind_from c r (i + 1) (if Ascii.eqb x c then i else last)
  end.

Definition rfind (c : ascii) (s : string) : Z :=
  rfind_from c (chars s) 0 (-1).

(** Slice bounds as Python normalises them: a negative bound counts from
    the end, and the result is clamped to [0, len]. *)
Definition clamp (n : Z) (k : Z) : nat :=
  let k' := if k <? 0 then k + n else k in
  Z.to_nat (Z.max 0 (Z.min k' n)).

(** [s[:k]] *)
Definition slice_to (s : string) (k : Z) : string :=
  str (take (clamp (len s) k) (chars s)).

(** [s[k:]] *)
Definition slice_from (s : string) (k : Z) : string :=
  str (drop (clamp (len s) k) (chars s)).

(** [s[i:j]] *)
Definition slice (s : string) (i j : Z) : string :=
  let a := clamp (len s) i in
  let b := clamp (len s) j in
  str (take (b - a)%nat (drop a (chars s))).

Fixpoint lstrip_chars (c : ascii) (l : list ascii) : list ascii :=
  match l with
  | [] => []
  | x :: r => if Ascii.eqb x c then lstrip_chars c r else l
  end.

Definition rstrip_chars (c : ascii) (l : list ascii) : list ascii :=
  rev (lstrip_chars c (rev l)).

(** [s.rstrip(c)] and [s.strip(c)] for a one-character set. *)
Definition rstrip (c : ascii) (s : string) : string :=
  str (rstrip_chars c (chars s)).

Definition strip (c : ascii) (s : string) : string :=
  str (rstrip_chars c (lstrip_chars c (chars s))).

Definition lower_char (c : ascii) : ascii :=
  let n := nat_of_ascii c in
  if ((65 <=? n) && (n <=? 90))%nat then ascii_of_nat (n + 32) else c.

(** [s.lower()], on the ASCII letters. *)
Definition lower (s : string) : string := str (map lower_char (chars s)).

(** Truth value of a string: non-empty. *)
Definition truthy (s : string) : bool :=
  match s with EmptyString => false | String _ _ => true end.

(** The loop of [genericpath._splitext] that skips leading dots: it
    answers at the first character that is not a dot. *)
Fixpoint has_non_dot (l : list ascii) : bool :=
  match l with
  | [] => false
  | x :: r => if Ascii.eqb x "." then has_non_dot r else true
  end.

(** [os.path.splitext] (posixpath: separator [/], no alternative
    separator). *)
Definition splitext (p : string) : string * string :=
  let sepIndex := rfind "/" p in
  let dotIndex := rfind "." p in
  if (sepIndex <? dotIndex)
     && has_non_dot (chars (slice p (sepIndex + 1) dotIndex))
  then (slice_to p dotIndex, slice_from p dotIndex)
  else (p, EmptyString).

(** [os.path.split] (posixpath). *)
Definition all_sep (l : list ascii) : bool :=
  forallb (fun x => Ascii.eqb x "/") l.

Definition split (p : string) : string * string :=
  let i := rfind "/" p + 1 in
  let head := slice_to p i in
  let tail := slice_from p i in
  let head' := if truthy head && negb (all_sep (chars head))
               then rstrip "/" head else head in
  (head', tail).

End Py.

(** ** Values exchanged with the collaborators *)

Set Warnings "-register-all".

Definition bytes := list byte.

(** A decoded JSON document, as [json.loads] and [get_json_body] return it.
    [JNull] is Python's [None]. *)
Inductive json : Type :=
| JNull
| JBool (b : bool)
| JNum (n : Z)
| JStr (s : string)
| JList (l : list json)
| JDict (d : list (string * json)).

(** A notebook node and a traitlets [Config] are dict-like documents. *)
Definition notebook := json.
Definition config := json.

(** An instance of a Python class deriving from [Exception]; [exc_str] is
    what [str(e)] and ["%s" % e] give. *)
Record pyexc := mk_exc { exc_class : string; exc_str : string }.

(** What leaves a handler method by [raise]: a [tornado.web.HTTPError]
    carrying a status, or any other exception, which the framework sees as
    an unhandled fault. *)
Inductive raised :=
| HTTPError (status : Z) (log_message : string)
| Uncaught (e : pyexc).

(** The primary output of an exporter: text or bytes. *)
Inductive payload :=
| PText (s : string)
| PBytes (b : bytes).

(** The resources an exporter returns.  ['output_extension'] is always
    filled in by the engine; ['outputs'] may be missing. *)
Record resources := {
  output_extension : string;
  outputs : option (list (string * bytes));
}.

(** The resources dictionary passed to [from_notebook_node].  Keys the
    handler may leave out are options. *)
Record resource_dict := {
  rd_name : string;                      (* ['metadata']['name'] *)
  rd_modified_date : option string;      (* ['metadata']['modified_date'] *)
  rd_path : option string;               (* ['metadata']['path'] *)
  rd_config_dir : string;                (* ['config_dir'] *)
  rd_output_files_dir : option string;   (* ['output_files_dir'] *)
}.

Record exporter := {
  from_notebook_node :
    notebook -> resource_dict -> pyexc + (payload * resources);
  output_mimetype : string;
}.

(** An exporter class of the engine's registry; calling it may raise. *)
Record exporter_class := {
  class_name : string;
  construct : config -> pyexc + exporter;
}.

(** The model [contents_manager.get] returns. *)
Record model := {
  m_name : string;
  m_type : string;
  m_content : notebook;
  m_last_modified : Z;
}.

(** Library routines the handlers call. *)
Record pylib := {
  url_escape : string -> string;              (* tornado.escape.url_escape *)
  encode_utf8 : string -> bytes;              (* str.encode('utf-8') *)
  json_loads_text : string -> pyexc + json;   (* json.loads on a str *)
  json_dumps : json -> string;                (* json.dumps *)
  nbformat_reads : string -> pyexc + notebook;  (* nbformat.reads(_, as_version=4) *)
  from_dict : json -> notebook;               (* nbformat.from_dict *)
  config_merge : config -> json -> pyexc + config;  (* Config.merge *)
  strftime_date : Z -> string;                (* strftime(text.date_format) *)
  format_timestamp : Z -> string;             (* how set_header renders a datetime *)
}.

(** What the engine's [get_exporter(format)] does: it raises [KeyError],
    raises something else, or returns the exporter class. *)
Inductive lookup_outcome :=
| key_error
| lookup_raises (e : pyexc)
| exporter_found (cls : exporter_class).

(** What [from nbconvert.exporters.base import get_exporter] does: it
    raises [ImportError], raises something else, or gives the lookup. *)
Inductive import_outcome :=
| import_error (e : pyexc)
| import_raises (e : pyexc)
| imported (base_get_exporter : string -> lookup_outcome).

(** A registry given as a partial map: [KeyError] where it is undefined. *)
Definition of_registry (registry : string -> option exporter_class)
    (format : string) : lookup_outcome :=
  match registry format with
  | Some cls => exporter_found cls
  | None => key_error
  end.

(** The server a handler runs in: the conversion engine, the contents
    manager and the application settings. *)
Record server := {
  nbconvert_base : import_outcome;
  contents_get : string -> raised + model;
  get_os_path : option (string -> string);    (* contents_manager._get_os_path, if any *)
  settings_config_dir : string;
  self_config : config;
}.

(** The decoded request: for each query argument the value
    [get_argument] finds for it, and what [get_json_body] returns
    ([HTTPError 400] on a body that is not JSON, [JNull] on an empty
    body). *)
Record request := {
  arguments : list (string * string);
  json_body : raised + json;
}.

Inductive compression := ZIP_STORED | ZIP_DEFLATED.

(** One member of a [zipfile.ZipFile] opened for writing: the arguments of
    [writestr] and the archive's compression method. *)
Record zip_entry := {
  ze_name : string;
  ze_data : bytes;
  ze_compress : compression;
}.

(** What [finish] was called with: the raw output, or the value of the
    buffer a zip archive was written to. *)
Inductive response_body :=
| RawBody (p : payload)
| ZipBody (members : list zip_entry).

(** One call of [exporter.from_notebook_node]: its arguments and what it
    returned or raised. *)
Record invocation := {
  inv_nb : notebook;
  inv_resources : resource_dict;
  inv_result : pyexc + (payload * resources);
}.

(** The handler object during one request, together with the trace of the
    calls made to the exporter. *)
Record hstate := {
  headers : gmap string string;
  finished : option response_body;
  redirected : option string;
  log : list string;
  invocations : list invocation;
}.

Definition fresh : hstate :=
  {| headers := ∅; finished := None; redirected := None;
     log := []; invocations := [] |}.

(** ** The handler monad: state and [raise] *)

Definition M (A : Type) : Type := hstate -> (raised + A) * hstate.

Definition ret {A} (a : A) : M A := fun st => (inr a, st).

Definition raise {A} (r : raised) : M A := fun st => (inl r, st).

Definition bind {A B} (m : M A) (k : A -> M B) : M B :=
  fun st =>
    match m st with
    | (inl r, st') => (inl r, st')
    | (inr a, st') => k a st'
    end.

Notation "'let*' x ':=' c1 'in' c2" := (bind c1 (fun x => c2))
  (at level 10, x name, c1 at level 100, c2 at level 200, only parsing).
Notation "c1 ';;' c2" := (bind c1 (fun _ => c2))
  (at level 100, c2 at level 200, right associativity, only parsing).

(** A call that raises an ordinary exception, outside any [try]. *)
Definition call {A} (r : pyexc + A) : M A :=
  match r with
  | inl e => raise (Uncaught e)
  | inr a => ret a
  end.

(** A call that may raise an [HTTPError] of its own. *)
Definition call_http {A} (r : raised + A) : M A :=
  match r with
  | inl e => raise e
  | inr a => ret a
  end.

Definition set_header (name value : string) : M unit :=
  fun st =>
    (inr tt,
     {| headers := <[name := value]> (headers st);
        finished := finished st; redirected := redirected st;
        log := log st; invocations := invocations st |}).

Definition finish (b : response_body) : M unit :=
  fun st =>
    (inr tt,
     {| headers := headers st;
        finished := Some b; redirected := redirected st;
        log := log st; invocations := invocations st |}).

(** [log.exception(msg)] *)
Definition log_exception (msg : string) : M unit :=
  fun st =>
    (inr tt,
     {| headers := headers st;
        finished := finished st; redirected := redirected st;
        log := log st ++ [msg]; invocations := invocations st |}).

(** [exporter.from_notebook_node(nb, resources=rd)], recorded in the trace;
    the exception, if any, is handed to the enclosing [try]. *)
Definition invoke (ex : exporter) (nb : notebook) (rd : resource_dict)
  : M (pyexc + (payload * resources)) :=
  fun st =>
    let r := from_notebook_node ex nb rd in
    (inr r,
     {| headers := headers st;
        finished := finished st; redirected := redirected st;
        log := log st;
        invocations := invocations st ++
          [ {| inv_nb := nb; inv_resources := rd; inv_result := r |} ] |}).

(** ** Operations on decoded JSON values *)

Fixpoint assoc {A} (k : string) (d : list (string * A)) : option A :=
  match d with
  | [] => None
  | (k', v) :: r => if String.eqb k' k then Some v else assoc k r
  end.

Definition AttributeError (what : string) : pyexc :=
  mk_exc "AttributeError" what.
Definition KeyError (key : string) : pyexc := mk_exc "KeyError" key.
Definition TypeError (what : string) : pyexc := mk_exc "TypeError" what.

(** [v.get(k, default)]: only a dict has [get]. *)
Definition py_get (v : json) (k : string) (default : json) : pyexc + json :=
  match v with
  | JDict d => inr (match assoc k d with Some x => x | None => default end)
  | _ => inl (AttributeError "object has no attribute 'get'")
  end.

(** [v[k]] for a string key. *)
Definition py_getitem (v : json) (k : string) : pyexc + json :=
  match v with
  | JDict d => match assoc k d with
               | Some x => inr x
               | None => inl (KeyError k)
               end
  | _ => inl (TypeError "object is not subscriptable by a string")
  end.

(** [name[:name.rfind('.')]] on a str. *)
Definition strip_from_last_dot (name : string) : string :=
  Py.slice_to name (Py.rfind "." name).

Definition dquote : string := String "034" EmptyString.

Section Functions.

Context (L : pylib).

(** [json.loads(v)]: the argument must be text. *)
Definition json_loads (v : json) : pyexc + json :=
  match v with
  | JStr s => json_loads_text L s
  | _ => inl (TypeError "the JSON object must be str, bytes or bytearray")
  end.

(** [ipython_genutils.py3compat.cast_bytes(s, 'utf-8')] *)
Definition cast_bytes (s : payload) : bytes :=
  match s with
  | PText t => encode_utf8 L t
  | PBytes b => b
  end.

(** The [ZipFile] being written: its compression method and members. *)
Record ZipFile := {
  zf_compression : compression;
  zf_members : list zip_entry;
}.

(** [ZipInfo(filename).filename]: the name ends at its first NUL (the
    path separator is [/] already). *)
Fixpoint ZipInfo_filename (filename : string) : string :=
  match filename with
  | EmptyString => EmptyString
  | String c rest =>
      if Ascii.eqb c "000" then EmptyString
      else String c (ZipInfo_filename rest)
  end.

Definition IndexError (what : string) : pyexc := mk_exc "IndexError" what.
Definition struct_error (what : string) : pyexc := mk_exc "struct.error" what.

(** [zipf.writestr(filename, data)]: the member is stored under the
    normalised name.  [zinfo.filename[-1]] raises on an empty name, and the
    member header holds the length of the encoded name in sixteen bits. *)
Definition writestr (zipf : ZipFile) (filename : string) (data : bytes)
  : pyexc + ZipFile :=
  let filename := ZipInfo_filename filename in
  if negb (Py.truthy filename) then
    inl (IndexError "string index out of range")
  else if 65535 <? Z.of_nat (length (encode_utf8 L filename)) then
    inl (struct_error "ushort format requires 0 <= number <= 65535")
  else
    inr {| zf_compression := zf_compression zipf;
           zf_members := zf_members zipf ++
             [ {| ze_name := filename; ze_data := data;
                  ze_compress := zf_compression zipf |} ] |}.

(** [for filename, data in items: zipf.writestr(filename, data)] *)
Fixpoint writestr_each (zipf : ZipFile) (items : list (string * bytes))
  : pyexc + ZipFile :=
  match items with
  | [] => inr zipf
  | (filename, data) :: rest =>
      match writestr zipf filename data with
      | inl e => inl e
      | inr zipf => writestr_each zipf rest
      end
  end.

(** Truth value of [resources.get('outputs', None)]. *)
Definition truthy_outputs (o : option (list (string * bytes))) : bool :=
  match o with
  | None => false
  | Some [] => false
  | Some (_ :: _) => true
  end.

Definition respond_zip (name : string) (output : payload)
    (res : resources) : M bool :=
  let output_files := outputs res in
  if negb (truthy_outputs output_files) then ret false
  else
    (* Headers *)
    let zip_filename := fst (Py.splitext name) +:+ ".zip" in
    set_header "Content-Disposition"
      ("attachment; filename=" +:+ dquote +:+
       url_escape L zip_filename +:+ dquote) ;;
    set_header "Content-Type" "application/zip" ;;
    (* create zip file *)
    let zipf := {| zf_compression := ZIP_DEFLATED; zf_members := [] |} in
    let output_filename :=
      fst (Py.splitext name) +:+ output_extension res in
    let* zipf := call (writestr zipf output_filename (cast_bytes output)) in
    (* add external resources *)
    let* zipf := call (writestr_each zipf (default [] output_files)) in
    finish (ZipBody (zf_members zipf)) ;;
    ret true.

(** [get_exporter(format, config=cfg, ...)]; the remaining keyword
    arguments (the logger) do not bear on the outcome. *)
Definition get_exporter (srv : server) (format : string) (cfg : config)
  : M exporter :=
  match nbconvert_base srv with
  | import_error e =>
      raise (HTTPError 500 ("Could not import nbconvert: " +:+ exc_str e))
  | import_raises e => raise (Uncaught e)
  | imported base_get_exporter =>
      match base_get_exporter format with
      | key_error =>
          raise (HTTPError 404 ("No exporter for format: " +:+ format))
      | lookup_raises e => raise (Uncaught e)
      | exporter_found Exporter =>
          match construct Exporter cfg with
          | inr ex => ret ex
          | inl e =>
              log_exception
                ("Could not construct Exporter: " +:+ class_name Exporter) ;;
              raise (HTTPError 500
                       ("Could not construct Exporter: " +:+ exc_str e))
          end
      end
  end.

(** [self.get_argument(name, default)] *)
Definition get_argument (req : request) (name default : string) : string :=
  match assoc name (arguments req) with
  | Some v => v
  | None => default
  end.

(** [self.get_json_body()] *)
Definition get_json_body (req : request) : M json :=
  call_http (json_body req).

(** Modelled from the spec: [IPythonHandler.set_attachment_header]
    (notebook/base/handlers.py, not under src/), which on the raw path
    sets "a content-disposition header forcing download with filename
    <name-without-extension><output_extension>". *)
Definition attachment_for (filename : string) : string :=
  "attachment; filename=" +:+ dquote +:+ filename +:+ dquote.

Definition set_attachment_header (filename : string) : M unit :=
  set_header "Content-Disposition" (attachment_for filename).

(** Modelled from the spec: [FilesRedirectHandler.redirect_to_files]
    (notebook/base/handlers.py, not under src/): "redirect to a generic
    file-serving route instead of converting".  The state records the
    path handed to the file-serving route. *)
Definition redirect_to_files (path : string) : M unit :=
  fun st =>
    (inr tt,
     {| headers := headers st;
        finished := finished st; redirected := Some path;
        log := log st; invocations := invocations st |}).

End Functions.

(** ** The handlers

    The methods are modelled for a request that passed [web.authenticated];
    [srv] is the server the handler belongs to and [req] the request it
    serves. *)

Module NbconvertFileHandler.
Section Methods.

Context (L : pylib) (srv : server) (req : request).

Definition call_nbconvert (format path : string) (cfg : config)
    (content : option string) : M unit :=
  let* exporter := get_exporter srv format cfg in
  let path := Py.strip "/" path in
  (* If the notebook relates to a real file, give its path to nbconvert. *)
  let ext_resources_dir :=
    match get_os_path srv with
    | Some _get_os_path => Some (fst (Py.split (_get_os_path path)))
    | None => None
    end in
  let* model := call_http (contents_get srv path) in
  let name := m_name model in
  if negb (String.eqb (m_type model) "notebook") then
    (* not a notebook, redirect to files *)
    redirect_to_files path
  else
    let* nb :=
      match content with
      | None => ret (m_content model)
      | Some c => call (nbformat_reads L c)
      end in
    set_header "Last-Modified"
               (format_timestamp L (m_last_modified model)) ;;
    (* create resources dictionary *)
    let mod_date := strftime_date L (m_last_modified model) in
    let nb_title := fst (Py.splitext name) in
    let resource_dict :=
      {| rd_name := nb_title;
         rd_modified_date := Some mod_date;
         rd_path :=
           match ext_resources_dir with
           | Some d => if Py.truthy d then Some d else None
           | None => None
           end;
         rd_config_dir := settings_config_dir srv;
         rd_output_files_dir := Some (nb_title +:+ "_files") |} in
    let* r := invoke exporter nb resource_dict in
    match r with
    | inl e =>
        log_exception ("nbconvert failed: " +:+ exc_str e) ;;
        raise (HTTPError 500 ("nbconvert failed: " +:+ exc_str e))
    | inr (output, resources) =>
        let* zipped := respond_zip L name output resources in
        if zipped then ret tt
        else
          (* Force download if requested *)
          (if String.eqb (Py.lower (get_argument req "download" "false"))
                         "true"
           then set_attachment_header
                  (fst (Py.splitext name) +:+ output_extension resources)
           else ret tt) ;;
          (* MIME type *)
          (if Py.truthy (output_mimetype exporter)
           then set_header "Content-Type"
                  (output_mimetype exporter +:+ "; charset=utf-8")
           else ret tt) ;;
          finish (RawBody output)
    end.

Definition get (format path : string) : M unit :=
  call_nbconvert format path (self_config srv) None.

Definition post (format path : string) : M unit :=
  let c := self_config srv in
  let* json_upload := get_json_body req in
  let* config_text := call (py_get json_upload "config" (JDict [])) in
  let* json_config := call (json_loads L config_text) in
  let* c := call (config_merge L c json_config) in
  let* nb := call (py_getitem json_upload "notebook") in
  let nb_content := json_dumps L nb in
  call_nbconvert format path c (Some nb_content).

End Methods.
End NbconvertFileHandler.

Module NbconvertPostHandler.
Section Methods.

Context (L : pylib) (srv : server) (req : request).

Definition post (format : string) : M unit :=
  let* exporter := get_exporter srv format (self_config srv) in
  let* model := get_json_body req in
  let* name := call (py_get model "name" (JStr "notebook.ipynb")) in
  let* content := call (py_getitem model "content") in
  let nbnode := from_dict L content in
  match name with
  | JStr name =>
      let* r :=
        invoke exporter nbnode
          {| rd_name := strip_from_last_dot name;
             rd_modified_date := None;
             rd_path := None;
             rd_config_dir := settings_config_dir srv;
             rd_output_files_dir := None |} in
      match r with
      | inl e =>
          raise (HTTPError 500 ("nbconvert failed: " +:+ exc_str e))
      | inr (output, resources) =>
          let* zipped := respond_zip L name output resources in
          if zipped then ret tt
          else
            (* MIME type *)
            (if Py.truthy (output_mimetype exporter)
             then set_header "Content-Type"
                    (output_mimetype exporter +:+ "; charset=utf-8")
             else ret tt) ;;
            finish (RawBody output)
      end
  | _ =>
      (* [name.rfind] raises inside the [try] *)
      raise (HTTPError 500
               ("nbconvert failed: " +:+
                exc_str (AttributeError "object has no attribute 'rfind'")))
  end.

End Methods.
End NbconvertPostHandler.

(** ** URL to handler mappings

    [default_handlers] sends [/nbconvert/<format>] to [NbconvertPostHandler]
    (POST only) and [/nbconvert/<format><path>] to [NbconvertFileHandler]
    (GET and POST). *)

Inductive route :=
| GET_path (format path : string)
| POST_path (format path : string)
| POST_body (format : string).

Definition dispatch (L : pylib) (srv : server) (req : request) (r : route)
  : M unit :=
  match r with
  | GET_path format path => NbconvertFileHandler.get L srv req format path
  | POST_path format path => NbconvertFileHandler.post L srv req format path
  | POST_body format => NbconvertPostHandler.post L srv req format
  end.

Definition route_format (r : route) : string :=
  match r with
  | GET_path f _ | POST_path f _ | POST_body f => f
  end.

Definition route_path (r : route) : option string :=
  match r with
  | GET_path _ p | POST_path _ p => Some p
  | POST_body _ => None
  end.

(** ** Vocabulary of the statements *)

(** The format is absent from the engine's registry. *)
Definition unregistered (srv : server) (format : string) : Prop :=
  exists reg, nbconvert_base srv = imported reg /\ reg format = key_error.

(** The format is registered and its exporter is constructed from [cfg]. *)
Definition resolves (srv : server) (format : string) (cfg : config)
    (ex : exporter) : Prop :=
  exists reg cls,
    nbconvert_base srv = imported reg /\
    reg format = exporter_found cls /\
    construct cls cfg = inr ex.

(** The body of a path-based POST is decoded by the handler into the merged
    configuration [c] and the notebook text [nb_content]. *)
Definition upload_decodes (L : pylib) (srv : server) (req : request)
    (c : config) (nb_content : string) : Prop :=
  exists json_upload config_text json_config nb,
    json_body req = inr json_upload /\
    py_get json_upload "config" (JDict []) = inr config_text /\
    json_loads L config_text = inr json_config /\
    config_merge L (self_config srv) json_config = inr c /\
    py_getitem json_upload "notebook" = inr nb /\
    nb_content = json_dumps L nb.


(** The name a request's response files are derived from: the storage
    model's name on the path routes, the body's ['name'] (or the default)
    on the body route. *)
Definition request_name (srv : server) (req : request) (r : route)
    (name : string) : Prop :=
  match r with
  | GET_path _ path | POST_path _ path =>
      exists m, contents_get srv (Py.strip "/" path) = inr m /\
                name = m_name m
  | POST_body _ =>
      exists body, json_body req = inr body /\
        py_get body "name" (JStr "notebook.ipynb") = inr (JStr name)
  end.

(** The configuration a route hands to [get_exporter]: the server's own,
    or on a path-based POST the one merged from the decoded body. *)
Definition route_config (L : pylib) (srv : server) (req : request)
    (r : route) (cfg : config) : Prop :=
  match r with
  | GET_path _ _ | POST_body _ => cfg = self_config srv
  | POST_path _ _ => exists nb_content, upload_decodes L srv req cfg nb_content
  end.

(** The final handler state and the outcome of a request served from a
    fresh handler. *)
Definition response (L : pylib) (srv : server) (req : request) (r : route)
  : hstate := snd (dispatch L srv req r fresh).

Definition result (L : pylib) (srv : server) (req : request) (r : route)
  : raised + unit := fst (dispatch L srv req r fresh).

(** [download=true], as the path-based handler tests it. *)
Definition download_requested (req : request) : bool :=
  String.eqb (Py.lower (get_argument req "download" "false")) "true".

(** A handler as the framework hands it over, with the default headers
    [h0] set and nothing else done. *)
Definition started (h0 : gmap string string) : hstate :=
  {| headers := h0; finished := None; redirected := None;
     log := []; invocations := [] |}.

Definition response_from (L : pylib) (srv : server) (req : request)
    (r : route) (h0 : gmap string string) : hstate :=
  snd (dispatch L srv req r (started h0)).

Definition result_from (L : pylib) (srv : server) (req : request)
    (r : route) (h0 : gmap string string) : raised + unit :=
  fst (dispatch L srv req r (started h0)).

(** [k] is a key of the object [d], with value [v]. *)
Inductive bound_to {A : Type} (k : string) (v : A)
  : list (string * A) -> Prop :=
| bound_here (d : list (string * A)) : bound_to k v ((k, v) :: d)
| bound_later (k' : string) (v' : A) (d : list (string * A)) :
    k' <> k -> bound_to k v d -> bound_to k v ((k', v') :: d).

(** [k] is no key of the object [d]. *)
Definition unbound {A : Type} (k : string) (d : list (string * A)) : Prop :=
  Forall (fun kv => fst kv <> k) d.

(** [member] is [filename] up to its first NUL character, the whole of it
    when it has none. *)
Definition before_nul (filename member : string) : Prop :=
  ("000"%char ∉ Py.chars member) /\
  (filename = member \/
   exists rest, filename = member +:+ String "000" rest).

(** A name a zip member can be stored under: the part before its first NUL
    is not empty and takes at most 65535 bytes in UTF-8. *)
Definition storable (L : pylib) (filename : string) : Prop :=
  exists member,
    before_nul filename member /\
    member <> EmptyString /\
    Z.of_nat (length (encode_utf8 L member)) <= 65535.

(** The payload as bytes: text in UTF-8, bytes as they are. *)
Definition payload_bytes (L : pylib) (output : payload) : bytes :=
  match output with
  | PText text => encode_utf8 L text
  | PBytes b => b
  end.

(** The archive member [mem] holds the item: it is named by the item's
    name up to its first NUL, holds its bytes, and is deflated. *)
Definition stored_as (item : string * bytes) (mem : zip_entry) : Prop :=
  before_nul (fst item) (ze_name mem) /\
  ze_data mem = snd item /\
  ze_compress mem = ZIP_DEFLATED.

(** The member [writestr] adds to a deflated archive. *)
Definition deflated (item : string * bytes) : zip_entry :=
  {| ze_name := fst item; ze_data := snd item; ze_compress := ZIP_DEFLATED |}.

(** ** A concrete server, for running the handlers *)

Module Demo.

Definition ascii_bytes (s : string) : bytes :=
  map byte_of_ascii (Py.chars s).

Definition empty_nb : json := JDict [].

(** A library instance that is exact on the few documents used below:
    the empty object and ASCII text. *)
Definition lib : pylib :=
  {| url_escape := fun s => s;
     encode_utf8 := ascii_bytes;
     json_loads_text := fun s =>
       if String.eqb s "{}" then inr (JDict [])
       else inl (mk_exc "ValueError" "Expecting value");
     json_dumps := fun j =>
       match j with
       | JDict [] => "{}"
       | JNull => "null"
       | _ => "[]"
       end;
     nbformat_reads := fun s =>
       if String.eqb s "{}" then inr empty_nb
       else inl (mk_exc "NotJSONError" "Notebook does not appear to be JSON");
     from_dict := fun j => j;
     config_merge := fun c j =>
       match c, j with
       | JDict a, JDict b => inr (JDict (b ++ a))
       | _, _ => inl (AttributeError "object has no attribute 'items'")
       end;
     strftime_date := fun _ => "January 01, 1970";
     format_timestamp := fun _ => "Thu, 01 Jan 1970 00:00:00 GMT" |}.

Definition html : exporter :=
  {| from_notebook_node := fun _ _ =>
       inr (PText "<html></html>",
            {| output_extension := ".html"; outputs := None |});
     output_mimetype := "text/html" |}.

Definition img1 : bytes := [x89; x50; x4e; x47]%byte.

Definition latex : exporter :=
  {| from_notebook_node := fun _ rd =>
       inr (PText "\documentclass{article}",
            {| output_extension := ".tex";
               outputs :=
                 Some [ (default "out" (rd_output_files_dir rd)
                           +:+ "/img1.png", img1) ] |});
     output_mimetype := "text/latex" |}.

Definition failing : exporter :=
  {| from_notebook_node := fun _ _ =>
       inl (mk_exc "ValueError" "bad cell");
     output_mimetype := "text/plain" |}.

Definition registry (format : string) : option exporter_class :=
  if String.eqb format "html" then
    Some {| class_name := "HTMLExporter"; construct := fun _ => inr html |}
  else if String.eqb format "latex" then
    Some {| class_name := "LatexExporter"; construct := fun _ => inr latex |}
  else if String.eqb format "failing" then
    Some {| class_name := "FailingExporter";
            construct := fun _ => inr failing |}
  else if String.eqb format "unbuildable" then
    Some {| class_name := "Unbuildable";
            construct := fun _ => inl (mk_exc "TraitError" "bad trait") |}
  else None.

Definition contents (path : string) : raised + model :=
  if String.eqb path "foo.ipynb" then
    inr {| m_name := "foo.ipynb"; m_type := "notebook";
           m_content := JDict [("on_disk", JBool true)];
           m_last_modified := 0 |}
  else if String.eqb path "data.csv" then
    inr {| m_name := "data.csv"; m_type := "file";
           m_content := JStr "a,b"; m_last_modified := 0 |}
  else inl (HTTPError 404 ("No such file or directory: " +:+ path)).

Definition srv : server :=
  {| nbconvert_base := imported (of_registry registry);
     contents_get := contents;
     get_os_path := Some (fun p => "/srv/nb/" +:+ p);
     settings_config_dir := "/etc/jupyter";
     self_config := JDict [] |}.

Definition request_of (args : list (string * string)) (body : json)
  : request :=
  {| arguments := args; json_body := inr body |}.

(** A request with no query argument and an empty body. *)
Definition plain : request := request_of [] JNull.

(** [{"notebook": {}, "config": "{}"}] *)
Definition upload : json :=
  JDict [("notebook", empty_nb); ("config", JStr "{}")].

(** [{"notebook": {}}] *)
Definition upload_no_config : json := JDict [("notebook", empty_nb)].

(** [{"config": "{}"}] *)
Definition upload_no_notebook : json := JDict [("config", JStr "{}")].

(** [{"content": {}, "name": name}] *)
Definition submit (name : string) : json :=
  JDict [("content", empty_nb); ("name", JStr name)].

(** [{"content": {}}] *)
Definition submit_unnamed : json := JDict [("content", empty_nb)].

(** The notebook stored at [foo.ipynb] and the descriptor the path-based
    handler builds for it. *)
Definition on_disk : notebook := JDict [("on_disk", JBool true)].

Definition foo_resources : resource_dict :=
  {| rd_name := "foo";
     rd_modified_date := Some "January 01, 1970";
     rd_path := Some "/srv/nb";
     rd_config_dir := "/etc/jupyter";
     rd_output_files_dir := Some "foo_files" |}.

(** The descriptor the body handler builds for a title. *)
Definition submit_resources (title : string) : resource_dict :=
  {| rd_name := title;
     rd_modified_date := None;
     rd_path := None;
     rd_config_dir := "/etc/jupyter";
     rd_output_files_dir := None |}.

Definition call_of (ex : exporter) (nb : notebook) (rd : resource_dict)
  : invocation :=
  {| inv_nb := nb; inv_resources := rd;
     inv_result := from_notebook_node ex nb rd |}.

End Demo.

(** Headers as Tornado sets them before a handler method runs, as far as
    the handlers here are concerned. *)
Definition framework_headers : gmap string string :=
  {[ "Content-Type" := "text/html; charset=UTF-8" ]}.

(** A client that posts an edited notebook, and a library that is exact on
    it as well. *)
Module Edited.

Definition notebook_doc : json := JDict [("edited", JBool true)].

Definition notebook_text : string :=
  "{" +:+ dquote +:+ "edited" +:+ dquote +:+ ": true}".

Definition lib : pylib :=
  {| url_escape := url_escape Demo.lib;
     encode_utf8 := encode_utf8 Demo.lib;
     json_loads_text := json_loads_text Demo.lib;
     json_dumps := fun j =>
       match j with
       | JDict [(k, JBool true)] =>
           if String.eqb k "edited" then notebook_text
           else json_dumps Demo.lib j
       | _ => json_dumps Demo.lib j
       end;
     nbformat_reads := fun s =>
       if String.eqb s notebook_text then inr notebook_doc
       else nbformat_reads Demo.lib s;
     from_dict := from_dict Demo.lib;
     config_merge := config_merge Demo.lib;
     strftime_date := strftime_date Demo.lib;
     format_timestamp := format_timestamp Demo.lib |}.

(** [{"config": "{}", "notebook": {"edited": true}}] *)
Definition upload : json :=
  JDict [("config", JStr "{}"); ("notebook", notebook_doc)].

(** [{"name": "draft.ipynb", "content": {"edited": true}}] *)
Definition submit : json :=
  JDict [("name", JStr "draft.ipynb"); ("content", notebook_doc)].

(** An exporter that declares no MIME type. *)
Definition bare : exporter :=
  {| from_notebook_node := fun _ _ =>
       inr (PText "plain",
            {| output_extension := ".txt"; outputs := None |});
     output_mimetype := EmptyString |}.

(** An engine that offers [bare] besides the exporters of [Demo.registry],
    and whose lookup of the format [broken] raises an exception that is no
    [KeyError]. *)
Definition engine (format : string) : lookup_outcome :=
  if String.eqb format "bare" then
    exporter_found {| class_name := "BareExporter";
                      construct := fun _ => inr bare |}
  else if String.eqb format "broken" then
    lookup_raises (mk_exc "ValueError" "entry point failed to load")
  else of_registry Demo.registry format.

Definition srv : server :=
  {| nbconvert_base := imported engine;
     contents_get := Demo.contents;
     get_os_path := Some (fun p => "/srv/nb/" +:+ p);
     settings_config_dir := "/etc/jupyter";
     self_config := JDict [] |}.

(** A server whose engine raises on import an exception that is no
    [ImportError]. *)
Definition srv_import_raises : server :=
  {| nbconvert_base :=
       import_raises (mk_exc "SyntaxError" "invalid syntax");
     contents_get := Demo.contents;
     get_os_path := None;
     settings_config_dir := "/etc/jupyter";
     self_config := JDict [] |}.

(** A name with a NUL character in it, and one that starts with it. *)
Definition nul_name : string := "a" +:+ String "000" "b.ipynb".

(** [{"content": {}, "name": name}] *)
Definition submit_named (name : string) : json :=
  JDict [("content", Demo.empty_nb); ("name", JStr name)].

End Edited.

(** ** Resource files on disk *)

(** A directory as [os.walk] sees it: the subdirectories it descends into,
    by name, and the names of the other entries.  Directories that cannot
    be listed, and links to directories, contribute no file and are left
    out. *)
Inductive fs_dir : Type :=
| Dir (dirs : list (string * fs_dir)) (filenames : list string).

(** [os.path.join(a, b)] (posixpath). *)
Definition starts_with_sep (b : string) : bool :=
  match b with
  | String c _ => Ascii.eqb c "/"
  | EmptyString => false
  end.

Definition ends_with_sep (a : string) : bool :=
  match rev (Py.chars a) with
  | c :: _ => Ascii.eqb c "/"
  | [] => false
  end.

Definition path_join (a b : string) : string :=
  if starts_with_sep b then b
  else if negb (Py.truthy a) || ends_with_sep a then a +:+ b
  else a +:+ "/" +:+ b.

(** The body of the loop over [os.walk(top)], top-down: the files of
    [top], then those of each subdirectory in turn. *)
Fixpoint walk_files (dirpath : string) (d : fs_dir) : list string :=
  match d with
  | Dir dirs filenames =>
      map (path_join dirpath) filenames ++
      flat_map (fun entry =>
                  let '(name, sub) := entry in
                  walk_files (path_join dirpath name) sub)
               dirs
  end.

(** [find_resource_files(output_files_dir)]; [fs] gives the directory found
    at a path, if there is one. *)
Definition find_resource_files (fs : string -> option fs_dir)
    (output_files_dir : string) : list string :=
  match fs output_files_dir with
  | None => []
  | Some d => walk_files output_files_dir d
  end.

(** The number of files anywhere below a directory. *)
Fixpoint count_files (d : fs_dir) : nat :=
  match d with
  | Dir dirs filenames =>
      (length filenames +
       list_sum (map (fun entry => let '(_, sub) := entry in count_files sub)
                     dirs))%nat
  end.


(** Every name below the directory is a plain entry name: it does not
    start with a separator. *)
Fixpoint plain_names (d : fs_dir) : bool :=
  match d with
  | Dir dirs filenames =>
      forallb (fun f => negb (starts_with_sep f)) filenames &&
      forallb (fun entry =>
                 let '(name, sub) := entry in
                 negb (starts_with_sep name) && plain_names sub)
              dirs
  end.

(** A name as a directory entry has it: not empty, and with no separator
    in it. *)
Definition entry_name (name : string) : bool :=
  Py.truthy name && forallb (fun c => negb (Ascii.eqb c "/")) (Py.chars name).

Fixpoint entry_names (d : fs_dir) : bool :=
  match d with
  | Dir dirs filenames =>
      forallb entry_name filenames &&
      forallb (fun entry =>
                 let '(name, sub) := entry in
                 entry_name name && entry_names sub)
              dirs
  end.

(** [file_below d rel]: [rel] is the path, relative to the directory [d]
    and with [/] between its parts, of a file in [d] or in a directory
    below it. *)
Inductive file_below : fs_dir -> string -> Prop :=
| file_here (dirs : list (string * fs_dir)) (filenames : list string)
    (f : string) :
    f ∈ filenames -> file_below (Dir dirs filenames) f
| file_deeper (dirs : list (string * fs_dir)) (filenames : list string)
    (name : string) (sub : fs_dir) (rel : string) :
    (name, sub) ∈ dirs -> file_below sub rel ->
    file_below (Dir dirs filenames) (name +:+ "/" +:+ rel).

(** A directory of extracted outputs, for running [find_resource_files]. *)
Module Disk.

Definition foo_files : fs_dir :=
  Dir [("img", Dir [] ["a.png"; "b.png"]); ("empty", Dir [] [])]
      ["style.css"].

Definition fs (path : string) : option fs_dir :=
  if String.eqb path "foo_files" then Some foo_files else None.

End Disk.

(** * Properties *)

(** ** Path and name splitting *)

Lemma str_app (a b : list ascii) :
  Py.str (a ++ b) = Py.str a +:+ Py.str b.
Proof.
  unfold Py.str. induction a as [|c a IH]; simpl; [done | by rewrite IH].
Qed.

Lemma str_chars (s : string) : Py.str (Py.chars s) = s.
Proof. apply string_of_list_ascii_of_string. Qed.

Lemma slice_join (p : string) (k : Z) :
  Py.slice_to p k +:+ Py.slice_from p k = p.
Proof.
  unfold Py.slice_to, Py.slice_from.
  by rewrite <- str_app, take_drop, str_chars.
Qed.

(** [os.path.splitext] only cuts: root and extension concatenate to the
    path. *)
Lemma splitext_join (p : string) :
  fst (Py.splitext p) +:+ snd (Py.splitext p) = p.
Proof.
  unfold Py.splitext. case_match; cbn [fst snd].
  - apply slice_join.
  - clear. induction p as [|c p IH]; [done | exact (f_equal (String c) IH)].
Qed.

(** Where [os.path.splitext] finds an extension, cutting at the last dot
    gives the same title. *)
Lemma strip_from_last_dot_splitext (name : string) :
  snd (Py.splitext name) <> EmptyString ->
  strip_from_last_dot name = fst (Py.splitext name).
Proof.
  unfold Py.splitext, strip_from_last_dot. by case_match.
Qed.

Example splitext_ipynb : Py.splitext "untitled.ipynb" = ("untitled", ".ipynb").
Proof. reflexivity. Qed.

Example splitext_hidden : Py.splitext ".bashrc" = (".bashrc", EmptyString).
Proof. reflexivity. Qed.

Example splitext_dir_dot : Py.splitext "a.b/c" = ("a.b/c", EmptyString).
Proof. reflexivity. Qed.

Example splitext_two : Py.splitext "x/..a.tar.gz" = ("x/..a.tar", ".gz").
Proof. reflexivity. Qed.

Example split_path : Py.split "/srv/nb/foo.ipynb" = ("/srv/nb", "foo.ipynb").
Proof. reflexivity. Qed.

Example split_root : Py.split "/foo" = ("/", "foo").
Proof. reflexivity. Qed.

Example strip_slashes : Py.strip "/" "//a/b/" = "a/b".
Proof. reflexivity. Qed.

Example lower_true : Py.lower "TrUe" = "true".
Proof. reflexivity. Qed.

(** ** Running the handlers *)

Ltac unfold_handlers H :=
  unfold dispatch, NbconvertFileHandler.get, NbconvertFileHandler.post,
    NbconvertFileHandler.call_nbconvert, NbconvertPostHandler.post,
    get_exporter, get_json_body, respond_zip, set_attachment_header,
    redirect_to_files, invoke, log_exception, finish, set_header,
    call, call_http, bind, ret, raise in H.


Ltac reduce_in H :=
  cbv beta iota in H;
  cbn [headers finished redirected log invocations fst snd
       inv_nb inv_resources inv_result] in H.

Ltac case_in H :=
  match type of H with
  | context [match ?x with _ => _ end] =>
      lazymatch x with
      | context [match _ with _ => _ end] => fail
      | _ => idtac
      end;
      first [ is_var x; destruct x | destruct x eqn:? ];
      reduce_in H
  end.


Ltac run_cases H :=
  unfold_handlers H; unfold fresh, started in H; reduce_in H;
  repeat case_in H;
  injection H as <- <-.

(** Name the outcome and the final state of the run in the goal. *)
Ltac name_run Hrun :=
  unfold response, result, response_from, result_from in *;
  match goal with
  | |- context [dispatch ?L ?srv ?req ?r ?st] =>
      destruct (dispatch L srv req r st) as [? ?] eqn:Hrun
  | H : context [dispatch ?L ?srv ?req ?r ?st] |- _ =>
      destruct (dispatch L srv req r st) as [? ?] eqn:Hrun
  end;
  cbn [fst snd] in *.

(** Bring two equations on the same call together. *)
Ltac same_call :=
  repeat match goal with
         | H1 : ?x = _, H2 : ?x = _ |- _ => rewrite H1 in H2; simplify_eq
         end.

Ltac outputs_truth :=
  match goal with
  | H : negb (truthy_outputs _) = _ |- _ =>
      apply (f_equal negb) in H; rewrite negb_involutive in H;
      cbn [negb] in H
  end.

Ltac the_invocation Hin :=
  cbn [invocations app] in Hin;
  first [ by apply elem_of_nil in Hin
        | apply list_elem_of_singleton in Hin; subst ].

Ltac lookup_headers :=
  cbn [headers];
  repeat first [ rewrite lookup_insert_eq
               | rewrite lookup_insert_ne by discriminate
               | rewrite lookup_empty ].

(** ** Member names *)

Lemma chars_cons (c : ascii) (s : string) :
  Py.chars (String c s) = c :: Py.chars s.
Proof. reflexivity. Qed.

Lemma ZipInfo_filename_plain (m : string) :
  "000"%char ∉ Py.chars m -> ZipInfo_filename m = m.
Proof.
  induction m as [|c m IH]; [done |].
  rewrite chars_cons, not_elem_of_cons. intros [Hc Hm]. simpl.
  destruct (Ascii.eqb_spec c "000"); [congruence |]. by rewrite IH.
Qed.

Lemma ZipInfo_filename_cut (m rest : string) :
  "000"%char ∉ Py.chars m ->
  ZipInfo_filename (m +:+ String "000" rest) = m.
Proof.
  induction m as [|c m IH]; [done |].
  rewrite chars_cons, not_elem_of_cons. intros [Hc Hm].
  change (String c m +:+ String "000" rest)
    with (String c (m +:+ String "000" rest)). simpl.
  destruct (Ascii.eqb_spec c "000"); [congruence |]. by rewrite IH.
Qed.

Lemma before_nul_ZipInfo (filename member : string) :
  before_nul filename member <-> ZipInfo_filename filename = member.
Proof.
  split.
  - intros [Hnul [-> | [rest ->]]].
    + by apply ZipInfo_filename_plain.
    + by apply ZipInfo_filename_cut.
  - intros <-. induction filename as [|c f [IHnul IHcut]].
    + split; [apply not_elem_of_nil | by left].
    + simpl. destruct (Ascii.eqb_spec c "000") as [-> | Hc].
      * split; [apply not_elem_of_nil | right; by exists f].
      * split.
        { rewrite chars_cons, not_elem_of_cons. by split. }
        destruct IHcut as [Heq | [rest Heq]].
        { left. by rewrite <- Heq. }
        right. exists rest.
        change (String c (ZipInfo_filename f) +:+ String "000" rest)
          with (String c (ZipInfo_filename f +:+ String "000" rest)).
        by rewrite <- Heq.
Qed.

(** A name without NUL is stored as it is. *)
Lemma before_nul_plain (filename member : string) :
  "000"%char ∉ Py.chars filename ->
  before_nul filename member <-> member = filename.
Proof.
  intros Hnul. rewrite before_nul_ZipInfo.
  rewrite (ZipInfo_filename_plain _ Hnul). split; congruence.
Qed.

Lemma storable_ZipInfo (L : pylib) (filename : string) :
  storable L filename <->
  ZipInfo_filename filename <> EmptyString /\
  Z.of_nat (length (encode_utf8 L (ZipInfo_filename filename))) <= 65535.
Proof.
  unfold storable. split.
  - intros (m & Hm & Hne & Hlen). apply before_nul_ZipInfo in Hm as <-.
    by split.
  - intros [Hne Hlen]. exists (ZipInfo_filename filename).
    by rewrite before_nul_ZipInfo.
Qed.

(** ** writestr *)

Lemma truthy_nonempty (s : string) : Py.truthy s = true <-> s <> EmptyString.
Proof. by destruct s. Qed.

Lemma writestr_stores (L : pylib) (z z' : ZipFile) (filename : string)
    (data : bytes) :
  writestr L z filename data = inr z' ->
  storable L filename /\
  zf_compression z' = zf_compression z /\
  exists mem,
    zf_members z' = (zf_members z ++ [mem])%list /\
    before_nul filename (ze_name mem) /\
    ze_data mem = data /\
    ze_compress mem = zf_compression z.
Proof.
  unfold writestr. rewrite storable_ZipInfo.
  destruct (Py.truthy (ZipInfo_filename filename)) eqn:Hne; [|done].
  destruct (65535 <? _) eqn:Hlen; [done |].
  intros [= <-]. apply truthy_nonempty in Hne. apply Z.ltb_ge in Hlen.
  repeat split; try done.
  eexists. split; [reflexivity |]. cbn.
  by rewrite before_nul_ZipInfo.
Qed.

Lemma writestr_raises (L : pylib) (z : ZipFile) (filename : string)
    (data : bytes) (e : pyexc) :
  writestr L z filename data = inl e -> ~ storable L filename.
Proof.
  unfold writestr. rewrite storable_ZipInfo.
  destruct (Py.truthy (ZipInfo_filename filename)) eqn:Hne.
  - destruct (65535 <? _) eqn:Hlen; [|done].
    apply Z.ltb_lt in Hlen. intros _ [_ Hle]. lia.
  - intros _ [Hnonempty _]. apply truthy_nonempty in Hnonempty. congruence.
Qed.

Lemma writestr_each_stores (L : pylib) (items : list (string * bytes))
    (z z' : ZipFile) :
  writestr_each L z items = inr z' ->
  zf_compression z = ZIP_DEFLATED ->
  Forall (storable L) (map fst items) /\
  exists added,
    zf_members z' = (zf_members z ++ added)%list /\
    Forall2 stored_as items added.
Proof.
  revert z. induction items as [|[filename data] items IH]; intros z; simpl.
  - intros [= <-] _. split; [constructor |].
    exists []. by rewrite app_nil_r.
  - destruct (writestr L z filename data) as [e|z1] eqn:Hw; [done |].
    intros Hrest Hz.
    apply writestr_stores in Hw
      as (Hst & Hz1 & mem & Hmem & Hname & Hdata & Hcomp).
    destruct (IH z1 Hrest) as (Hall & added & Hadded & Hstored);
      [congruence |].
    split; [by constructor |].
    exists (mem :: added). split.
    + by rewrite Hadded, Hmem, <- app_assoc.
    + constructor; [|done]. split; [exact Hname |]. split; [exact Hdata |].
      congruence.
Qed.

Lemma writestr_each_raises (L : pylib) (items : list (string * bytes))
    (z : ZipFile) (e : pyexc) :
  writestr_each L z items = inl e ->
  ~ Forall (storable L) (map fst items).
Proof.
  revert z. induction items as [|[filename data] items IH]; intros z; simpl;
    [done |].
  destruct (writestr L z filename data) as [e'|z1] eqn:Hw.
  - intros _ Hall. apply Forall_cons in Hall as [Hst _].
    by apply writestr_raises in Hw.
  - intros Hrest Hall. apply Forall_cons in Hall as [_ Hall].
    by apply (IH z1).
Qed.



(** ** respond_zip *)

Lemma truthy_outputs_some (files : list (string * bytes)) :
  files <> [] -> truthy_outputs (Some files) = true.
Proof. by destruct files. Qed.


Lemma truthy_outputs_empty (o : option (list (string * bytes))) :
  truthy_outputs o = false <-> o = None \/ o = Some [].
Proof.
  split.
  - destruct o as [[|item files]|]; try done; auto.
  - by intros [-> | ->].
Qed.

Lemma cast_bytes_payload (L : pylib) (output : payload) :
  cast_bytes L output = payload_bytes L output.
Proof. by destruct output. Qed.

Lemma respond_zip_declines (L : pylib) (name : string) (output : payload)
    (rs : resources) (st : hstate) :
  truthy_outputs (outputs rs) = false ->
  respond_zip L name output rs st = (inr false, st).
Proof. intros H. unfold respond_zip. by rewrite H. Qed.



(** ** Response packaging *)

(** The scenarios of the specification, run on the concrete server. *)

Example scenario_html :
  result Demo.lib Demo.srv Demo.plain (GET_path "html" "/foo.ipynb") = inr tt /\
  finished (response Demo.lib Demo.srv Demo.plain
                     (GET_path "html" "/foo.ipynb"))
    = Some (RawBody (PText "<html></html>")) /\
  headers (response Demo.lib Demo.srv Demo.plain
                    (GET_path "html" "/foo.ipynb")) !! "Content-Type"
    = Some "text/html; charset=utf-8".
Proof. repeat split. Qed.

Example scenario_latex :
  result Demo.lib Demo.srv Demo.plain (GET_path "latex" "/foo.ipynb") = inr tt /\
  ze_name <$>
    match finished (response Demo.lib Demo.srv Demo.plain
                             (GET_path "latex" "/foo.ipynb")) with
    | Some (ZipBody members) => members
    | _ => []
    end
  = ["foo.tex"; "foo_files/img1.png"] /\
  headers (response Demo.lib Demo.srv Demo.plain
                    (GET_path "latex" "/foo.ipynb")) !! "Content-Disposition"
    = Some ("attachment; filename=" +:+ dquote +:+ "foo.zip" +:+ dquote).
Proof. repeat split. Qed.

(** Leaves of a run: bring the request's name and the calls of [writestr]
    to the hypotheses at hand. *)
Ltac name_of_request Hname :=
  cbn [request_name] in Hname;
  let Hn := fresh "Hn" in
  destruct Hname as (? & Hn & ?); subst.

Ltac unstorable Hall :=
  match goal with
  | Hw : writestr _ _ _ _ = inl _ |- _ =>
      apply writestr_raises in Hw;
      apply Forall_cons in Hall as [? _]; done
  | Hw : writestr_each _ _ _ = inl _ |- _ =>
      apply writestr_each_raises in Hw;
      apply Forall_cons in Hall as [_ ?]; done
  end.


(** A name checked by computation to be storable. *)
Lemma storable_plain (L : pylib) (filename : string) :
  forallb (fun c => negb (Ascii.eqb c "000")) (Py.chars filename) = true ->
  Py.truthy filename = true ->
  (Z.of_nat (length (encode_utf8 L filename)) <=? 65535) = true ->
  storable L filename.
Proof.
  intros Hnul Hne Hlen. exists filename. split; [|split].
  - apply before_nul_plain; [|done].
    rewrite forallb_forall in Hnul. intros Hin.
    apply list_elem_of_In, Hnul in Hin. by rewrite Ascii.eqb_refl in Hin.
  - by apply truthy_nonempty.
  - by apply Z.leb_le.
Qed.



(** C1, as amended.  For every conversion whose returned resources hold a
    non-empty ['outputs'] mapping and whose member names can all be stored,
    the response body is a zip archive of exactly [len(outputs) + 1]
    deflated members: the first stored under [<title><output_extension>] up
    to its first NUL character (the title being the request name with its
    final extension stripped), holding the primary payload, text as UTF-8
    bytes; then one member per entry of the mapping, in its order, stored
    under the entry's key up to its first NUL and holding the entry's
    bytes. *)
Theorem zip_archive_members (L : pylib) (srv : server) (req : request)
    (r : route) (name : string) (i : invocation) (out : payload)
    (rs : resources) (files : list (string * bytes)) :
  i ∈ invocations (response L srv req r) ->
  inv_result i = inr (out, rs) ->
  outputs rs = Some files ->
  files <> [] ->
  request_name srv req r name ->
  Forall (storable L)
    ((fst (Py.splitext name) +:+ output_extension rs) :: map fst files) ->
  exists members,
    finished (response L srv req r) = Some (ZipBody members) /\
    Forall2 stored_as
      ((fst (Py.splitext name) +:+ output_extension rs,
        match out with
        | PText text => encode_utf8 L text
        | PBytes b => b
        end) :: files)
      members /\
    length members = S (length files).
Proof.
  intros Hin Hres Hout Hne Hname Hall. name_run Hrun.
  apply truthy_outputs_some in Hne.
  destruct r; name_of_request Hname.
  all: run_cases Hrun; the_invocation Hin;
    cbn [inv_result] in Hres; simplify_eq; same_call.
  all: outputs_truth; rewrite Hout in *; cbn [default] in *.
  all: try congruence.
  all: try unstorable Hall.
  all: cbn [finished].
  all: match goal with
       | Hw : writestr _ _ _ _ = inr _ |- _ =>
           apply writestr_stores in Hw
             as (_ & Hz & mem & Hmem & Hmname & Hmdata & Hmcomp)
       end.
  all: match goal with
       | Hw : writestr_each _ _ _ = inr _ |- _ =>
           apply writestr_each_stores in Hw
             as (_ & added & Hadded & Hstored); [|done]
       end.
  all: cbn [zf_members zf_compression app] in *.
  all: eexists; split; [reflexivity |].
  all: rewrite Hadded, Hmem; cbn [app].
  all: rewrite cast_bytes_payload in Hmdata; unfold payload_bytes, id in *.
  all: split;
    [ constructor; [|done]; split; [exact Hmname |]; split; [exact Hmdata |];
      exact Hmcomp
    | cbn [length]; f_equal; symmetry; by eapply Forall2_length ].
Qed.

Lemma zip_archive_members_witness :
  exists members,
    finished (response Demo.lib Demo.srv Demo.plain
                       (GET_path "latex" "/foo.ipynb"))
      = Some (ZipBody members) /\
    Forall2 stored_as
      [ ("foo.tex", encode_utf8 Demo.lib "\documentclass{article}");
        ("foo_files/img1.png", Demo.img1) ]
      members /\
    length members = 2%nat.
Proof.
  refine (zip_archive_members Demo.lib Demo.srv Demo.plain
            (GET_path "latex" "/foo.ipynb") "foo.ipynb"
            (Demo.call_of Demo.latex Demo.on_disk Demo.foo_resources)
            (PText "\documentclass{article}")
            {| output_extension := ".tex";
               outputs := Some [("foo_files/img1.png", Demo.img1)] |}
            [("foo_files/img1.png", Demo.img1)] _ eq_refl eq_refl _ _ _).
  - vm_compute; constructor.
  - discriminate.
  - eexists; split; reflexivity.
  - repeat constructor; by apply storable_plain.
Defined.

(** The archive of that response, member by member. *)
Example zip_archive_of_latex :
  finished (response Demo.lib Demo.srv Demo.plain
                     (GET_path "latex" "/foo.ipynb"))
  = Some (ZipBody
            [ deflated ("foo.tex",
                        Demo.ascii_bytes "\documentclass{article}");
              deflated ("foo_files/img1.png", Demo.img1) ]).
Proof. reflexivity. Qed.

(** C1 as stated fails: on the body route, the name [a<NUL>b.ipynb] gives
    the primary member name [a<NUL>b.tex], and the archive holds it under
    [a]: [zipfile] ends a member name at its first NUL. *)
Lemma zip_member_name_cut_at_nul :
  request_name Demo.srv
    (Demo.request_of [] (Edited.submit_named Edited.nul_name))
    (POST_body "latex") Edited.nul_name /\
  match finished
          (response Demo.lib Demo.srv
             (Demo.request_of [] (Edited.submit_named Edited.nul_name))
             (POST_body "latex"))
  with
  | Some (ZipBody members) => ze_name <$> members
  | _ => []
  end = ["a"; "out/img1.png"] /\
  fst (Py.splitext Edited.nul_name) +:+ ".tex" <> "a".
Proof.
  split; [eexists; split; reflexivity |].
  split; [reflexivity | discriminate].
Qed.

(** ** Exporter resolution *)

Lemma get_exporter_unregistered (srv : server) (format : string)
    (cfg : config) (st : hstate) :
  unregistered srv format ->
  get_exporter srv format cfg st
  = (inl (HTTPError 404 ("No exporter for format: " +:+ format)), st).
Proof.
  intros (reg & Hbase & Hnone). unfold get_exporter.
  by rewrite Hbase, Hnone.
Qed.

Lemma get_exporter_resolves (srv : server) (format : string)
    (cfg : config) (ex : exporter) (st : hstate) :
  resolves srv format cfg ex ->
  get_exporter srv format cfg st = (inr ex, st).
Proof.
  intros (reg & cls & Hbase & Hcls & Hex). unfold get_exporter.
  by rewrite Hbase, Hcls, Hex.
Qed.

Lemma post_decodes (L : pylib) (srv : server) (req : request)
    (format path : string) (c : config) (nb_content : string) (st : hstate) :
  upload_decodes L srv req c nb_content ->
  NbconvertFileHandler.post L srv req format path st
  = NbconvertFileHandler.call_nbconvert L srv req format path c
      (Some nb_content) st.
Proof.
  intros (up & ct & jc & nb & Hbody & Hget & Hloads & Hmerge & Hnb & ->).
  unfold NbconvertFileHandler.post, get_json_body, call_http, call, bind, ret.
  by rewrite Hbody, Hget, Hloads, Hmerge, Hnb.
Qed.

(** C3, as amended.  For a format absent from the registry, the GET
    path route (whatever the path) and the body route (whatever the body)
    fail with HTTP 404 and the message "No exporter for format: <format>";
    the path-based POST route does so once it has decoded its JSON body,
    which it reads before resolving the exporter. *)
Theorem unknown_format_not_found (L : pylib) (srv : server) (req : request)
    (r : route) :
  unregistered srv (route_format r) ->
  (exists cfg, route_config L srv req r cfg) ->
  dispatch L srv req r fresh
  = (inl (HTTPError 404 ("No exporter for format: " +:+ route_format r)),
     fresh).
Proof.
  intros Hun [cfg Hcfg]. destruct r as [f p|f p|f]; cbn in *.
  - unfold NbconvertFileHandler.get, NbconvertFileHandler.call_nbconvert, bind.
    by rewrite get_exporter_unregistered.
  - destruct Hcfg as [nbc Hdec]. rewrite (post_decodes _ _ _ _ _ _ _ _ Hdec).
    unfold NbconvertFileHandler.call_nbconvert, bind.
    by rewrite get_exporter_unregistered.
  - unfold NbconvertPostHandler.post, bind.
    by rewrite get_exporter_unregistered.
Qed.

Lemma unknown_format_not_found_witness :
  unregistered Demo.srv "docx" /\
  (exists cfg, route_config Demo.lib Demo.srv
                 (Demo.request_of [] Demo.upload)
                 (POST_path "docx" "/foo.ipynb") cfg) /\
  dispatch Demo.lib Demo.srv (Demo.request_of [] Demo.upload)
           (POST_path "docx" "/foo.ipynb") fresh
  = (inl (HTTPError 404 "No exporter for format: docx"), fresh).
Proof.
  assert (Hun : unregistered Demo.srv "docx")
    by (exists (of_registry Demo.registry); split; reflexivity).
  assert (Hcfg : exists cfg, route_config Demo.lib Demo.srv
                   (Demo.request_of [] Demo.upload)
                   (POST_path "docx" "/foo.ipynb") cfg).
  { exists (JDict []), "{}", Demo.upload, (JStr "{}"), (JDict []), Demo.empty_nb.
    repeat split; reflexivity. }
  split; [exact Hun | split; [exact Hcfg |]].
  exact (unknown_format_not_found Demo.lib Demo.srv
           (Demo.request_of [] Demo.upload)
           (POST_path "docx" "/foo.ipynb") Hun Hcfg).
Defined.

(** C3 as stated fails: a path-based POST naming an unregistered format
    whose body has no ['notebook'] member raises [KeyError] before the
    exporter is looked up, and is answered as an unhandled fault, not 404. *)
Lemma unknown_format_post_reads_body_first :
  unregistered Demo.srv "docx" /\
  result Demo.lib Demo.srv (Demo.request_of [] Demo.upload_no_notebook)
         (POST_path "docx" "/foo.ipynb")
  = inl (Uncaught (KeyError "notebook")) /\
  ~ (exists msg,
       result Demo.lib Demo.srv (Demo.request_of [] Demo.upload_no_notebook)
              (POST_path "docx" "/foo.ipynb")
       = inl (HTTPError 404 msg)).
Proof.
  split; [exists (of_registry Demo.registry); split; reflexivity |].
  split; [reflexivity |].
  intros [msg H]. vm_compute in H. discriminate.
Qed.

(** ** Conversion failures *)

(** C4, as amended.  On every route, an exception the exporter raises
    during [from_notebook_node] is caught by the handler and turned into
    HTTP 500 with the message "nbconvert failed: <exception>", and nothing
    is written as a response body.  The path-based handler logs it first;
    the body handler makes no log call. *)
Theorem engine_exception_is_500 (L : pylib) (srv : server) (req : request)
    (r : route) (i : invocation) (e : pyexc) :
  i ∈ invocations (response L srv req r) ->
  inv_result i = inl e ->
  result L srv req r
    = inl (HTTPError 500 ("nbconvert failed: " +:+ exc_str e)) /\
  finished (response L srv req r) = None /\
  log (response L srv req r)
    = match r with
      | POST_body _ => []
      | _ => ["nbconvert failed: " +:+ exc_str e]
      end.
Proof.
  intros Hin Hres. name_run Hrun.
  destruct r; run_cases Hrun; the_invocation Hin;
    cbn [inv_result] in Hres; simplify_eq.
  all: by cbn.
Qed.

Lemma engine_exception_is_500_witness :
  Demo.call_of Demo.failing Demo.on_disk Demo.foo_resources
    ∈ invocations (response Demo.lib Demo.srv Demo.plain
                            (GET_path "failing" "/foo.ipynb")) /\
  result Demo.lib Demo.srv Demo.plain (GET_path "failing" "/foo.ipynb")
    = inl (HTTPError 500 "nbconvert failed: bad cell") /\
  finished (response Demo.lib Demo.srv Demo.plain
                     (GET_path "failing" "/foo.ipynb")) = None /\
  log (response Demo.lib Demo.srv Demo.plain
                (GET_path "failing" "/foo.ipynb"))
    = ["nbconvert failed: bad cell"].
Proof.
  assert (Hin : Demo.call_of Demo.failing Demo.on_disk Demo.foo_resources
                  ∈ invocations (response Demo.lib Demo.srv Demo.plain
                                          (GET_path "failing" "/foo.ipynb")))
    by (vm_compute; constructor).
  split; [exact Hin |].
  exact (engine_exception_is_500 Demo.lib Demo.srv Demo.plain
           (GET_path "failing" "/foo.ipynb") _
           (mk_exc "ValueError" "bad cell") Hin eq_refl).
Defined.

(** C4 as stated fails on logging: on the body route an exception of the
    exporter becomes HTTP 500 with nothing logged by the handler. *)
Lemma engine_exception_unlogged_on_body_route :
  Demo.call_of Demo.failing Demo.empty_nb (Demo.submit_resources "notebook")
    ∈ invocations (response Demo.lib Demo.srv
                            (Demo.request_of [] Demo.submit_unnamed)
                            (POST_body "failing")) /\
  inv_result
    (Demo.call_of Demo.failing Demo.empty_nb
                  (Demo.submit_resources "notebook"))
    = inl (mk_exc "ValueError" "bad cell") /\
  result Demo.lib Demo.srv (Demo.request_of [] Demo.submit_unnamed)
         (POST_body "failing")
    = inl (HTTPError 500 "nbconvert failed: bad cell") /\
  log (response Demo.lib Demo.srv (Demo.request_of [] Demo.submit_unnamed)
                (POST_body "failing")) = [].
Proof.
  split; [vm_compute; constructor |].
  repeat split; reflexivity.
Qed.

(** ** Non-notebook paths *)

Lemma call_nbconvert_redirects (L : pylib) (srv : server) (req : request)
    (format path : string) (cfg : config) (content : option string)
    (ex : exporter) (m : model) :
  resolves srv format cfg ex ->
  contents_get srv (Py.strip "/" path) = inr m ->
  m_type m <> "notebook" ->
  NbconvertFileHandler.call_nbconvert L srv req format path cfg content fresh
  = (inr tt,
     {| headers := ∅; finished := None;
        redirected := Some (Py.strip "/" path);
        log := []; invocations := [] |}).
Proof.
  intros Hex Hget Htype.
  unfold NbconvertFileHandler.call_nbconvert, bind.
  rewrite (get_exporter_resolves _ _ _ _ _ Hex).
  unfold call_http, ret. rewrite Hget.
  apply String.eqb_neq in Htype. by rewrite Htype.
Qed.

(** C5, as amended.  On the path-based routes, once the exporter is
    resolved (the format is registered and its exporter constructed, from
    the configuration a POST decodes out of its body), a storage object
    whose type is not ['notebook'] makes the handler hand the path to the
    file redirect: the method returns normally, nothing is converted and no
    body is written. *)
Theorem non_notebook_redirects (L : pylib) (srv : server) (req : request)
    (r : route) (path : string) (cfg : config) (ex : exporter) (m : model) :
  route_path r = Some path ->
  route_config L srv req r cfg ->
  resolves srv (route_format r) cfg ex ->
  contents_get srv (Py.strip "/" path) = inr m ->
  m_type m <> "notebook" ->
  result L srv req r = inr tt /\
  redirected (response L srv req r) = Some (Py.strip "/" path) /\
  invocations (response L srv req r) = [] /\
  finished (response L srv req r) = None.
Proof.
  intros Hpath Hcfg Hex Hget Htype. unfold result, response.
  destruct r as [f p|f p|f]; cbn in Hpath, Hcfg, Hex; simplify_eq; cbn.
  - unfold NbconvertFileHandler.get.
    by rewrite (call_nbconvert_redirects _ _ _ _ _ _ _ _ _ Hex Hget Htype).
  - destruct Hcfg as [nbc Hdec]. rewrite (post_decodes _ _ _ _ _ _ _ _ Hdec).
    by rewrite (call_nbconvert_redirects _ _ _ _ _ _ _ _ _ Hex Hget Htype).
Qed.

Lemma non_notebook_redirects_witness :
  resolves Demo.srv "html" (JDict []) Demo.html /\
  result Demo.lib Demo.srv (Demo.request_of [] Demo.upload)
         (POST_path "html" "/data.csv") = inr tt /\
  redirected (response Demo.lib Demo.srv (Demo.request_of [] Demo.upload)
                       (POST_path "html" "/data.csv")) = Some "data.csv" /\
  invocations (response Demo.lib Demo.srv (Demo.request_of [] Demo.upload)
                        (POST_path "html" "/data.csv")) = [] /\
  finished (response Demo.lib Demo.srv (Demo.request_of [] Demo.upload)
                     (POST_path "html" "/data.csv")) = None.
Proof.
  assert (Hex : resolves Demo.srv "html" (JDict []) Demo.html).
  { eexists (of_registry Demo.registry), _. repeat split; reflexivity. }
  split; [exact Hex |].
  refine (non_notebook_redirects Demo.lib Demo.srv
            (Demo.request_of [] Demo.upload) (POST_path "html" "/data.csv")
            "/data.csv" (JDict []) Demo.html
            {| m_name := "data.csv"; m_type := "file";
               m_content := JStr "a,b"; m_last_modified := 0 |}
            eq_refl _ Hex eq_refl _).
  - exists "{}", Demo.upload, (JStr "{}"), (JDict []), Demo.empty_nb.
    repeat split; reflexivity.
  - discriminate.
Defined.

(** C5 as stated fails: a path-based POST to a non-notebook path with a
    registered format, whose body has no ['notebook'] member, raises
    [KeyError] while the body is read; nothing is redirected. *)
Lemma non_notebook_post_fails_before_redirect :
  Demo.registry "html" <> None /\
  (exists m, contents_get Demo.srv (Py.strip "/" "/data.csv") = inr m /\
             m_type m <> "notebook") /\
  result Demo.lib Demo.srv (Demo.request_of [] Demo.upload_no_notebook)
         (POST_path "html" "/data.csv")
  = inl (Uncaught (KeyError "notebook")) /\
  redirected (response Demo.lib Demo.srv
                       (Demo.request_of [] Demo.upload_no_notebook)
                       (POST_path "html" "/data.csv")) = None.
Proof.
  split; [discriminate |].
  split; [eexists; split; [reflexivity | discriminate] |].
  split; reflexivity.
Qed.

(** The same for a GET whose registered exporter class fails to construct:
    [get_exporter] answers 500. *)
Lemma non_notebook_unbuildable_exporter :
  Demo.registry "unbuildable" <> None /\
  result Demo.lib Demo.srv Demo.plain (GET_path "unbuildable" "/data.csv")
  = inl (HTTPError 500 "Could not construct Exporter: bad trait") /\
  redirected (response Demo.lib Demo.srv Demo.plain
                       (GET_path "unbuildable" "/data.csv")) = None.
Proof. split; [discriminate | split; reflexivity]. Qed.

(** ** Download disposition *)

(** C6, as amended.  For every response that is not a zip, the path-based
    routes set [Content-Disposition] to an attachment named
    [<title><output_extension>] when the [download] query argument is
    [true], and set no [Content-Disposition] when it is anything else or
    absent; the body route never sets [Content-Disposition] on such a
    response, whatever the argument. *)
Theorem download_disposition (L : pylib) (srv : server) (req : request)
    (r : route) (i : invocation) (out : payload) (rs : resources) :
  i ∈ invocations (response L srv req r) ->
  inv_result i = inr (out, rs) ->
  truthy_outputs (outputs rs) = false ->
  exists name,
    request_name srv req r name /\
    headers (response L srv req r) !! "Content-Disposition"
    = match r with
      | POST_body _ => None
      | _ =>
          if download_requested req
          then Some (attachment_for
                       (fst (Py.splitext name) +:+ output_extension rs))
          else None
      end.
Proof.
  intros Hin Hres Hraw. name_run Hrun. unfold download_requested.
  destruct r; run_cases Hrun; the_invocation Hin;
    cbn [inv_result] in Hres; simplify_eq.
  all: outputs_truth; try congruence.
  all: cbn [request_name]; eexists; (split; [eauto |]).
  all: repeat match goal with
         | H : (Py.lower _ =? "true")%string = _ |- _ => rewrite H; clear H
         end.
  all: by lookup_headers.
Qed.

Lemma download_disposition_witness :
  Demo.call_of Demo.html Demo.on_disk Demo.foo_resources
    ∈ invocations (response Demo.lib Demo.srv
                            (Demo.request_of [("download", "True")] JNull)
                            (GET_path "html" "/foo.ipynb")) /\
  exists name,
    request_name Demo.srv (Demo.request_of [("download", "True")] JNull)
                 (GET_path "html" "/foo.ipynb") name /\
    headers (response Demo.lib Demo.srv
                      (Demo.request_of [("download", "True")] JNull)
                      (GET_path "html" "/foo.ipynb")) !! "Content-Disposition"
    = Some (attachment_for (fst (Py.splitext name) +:+ ".html")).
Proof.
  assert (Hin : Demo.call_of Demo.html Demo.on_disk Demo.foo_resources
    ∈ invocations (response Demo.lib Demo.srv
                            (Demo.request_of [("download", "True")] JNull)
                            (GET_path "html" "/foo.ipynb")))
    by (vm_compute; constructor).
  split; [exact Hin |].
  exact (download_disposition Demo.lib Demo.srv
           (Demo.request_of [("download", "True")] JNull)
           (GET_path "html" "/foo.ipynb") _ _ _ Hin eq_refl eq_refl).
Defined.

(** C6 as stated fails on the body route: with [download=true] and a
    response that is not a zip, no [Content-Disposition] is set. *)
Lemma download_ignored_on_body_route :
  download_requested (Demo.request_of [("download", "true")]
                                      (Demo.submit "untitled.ipynb")) = true /\
  finished (response Demo.lib Demo.srv
                     (Demo.request_of [("download", "true")]
                                      (Demo.submit "untitled.ipynb"))
                     (POST_body "html"))
    = Some (RawBody (PText "<html></html>")) /\
  headers (response Demo.lib Demo.srv
                    (Demo.request_of [("download", "true")]
                                     (Demo.submit "untitled.ipynb"))
                    (POST_body "html")) !! "Content-Disposition" = None.
Proof. repeat split; reflexivity. Qed.

(** ** The document and the descriptor handed to the exporter *)

(** Keys of a decoded object: what [d[k]] and [d.get(k, default)] give. *)
Lemma assoc_bound {A : Type} (k : string) (d : list (string * A)) (v : A) :
  assoc k d = Some v <-> bound_to k v d.
Proof.
  split.
  - induction d as [|[k' v'] d IH]; cbn [assoc]; [done |].
    destruct (String.eqb k' k) eqn:Hk.
    + apply String.eqb_eq in Hk as ->. intros [= ->]. constructor.
    + apply String.eqb_neq in Hk. intros H. constructor; auto.
  - induction 1 as [d | k' v' d Hk _ IH]; cbn [assoc].
    + by rewrite String.eqb_refl.
    + apply String.eqb_neq in Hk. by rewrite Hk.
Qed.

Lemma assoc_unbound {A : Type} (k : string) (d : list (string * A)) :
  assoc k d = None <-> unbound k d.
Proof.
  unfold unbound. split.
  - induction d as [|[k' v'] d IH]; cbn [assoc]; [constructor |].
    destruct (String.eqb k' k) eqn:Hk; [done |].
    apply String.eqb_neq in Hk. intros H. constructor; auto.
  - induction 1 as [|[k' v'] d Hk _ IH]; cbn [assoc]; [done |].
    cbn [fst] in Hk. apply String.eqb_neq in Hk. by rewrite Hk.
Qed.





(** The uploaded document, not the stored one, is converted: the body
    carries [Edited.notebook_doc] under ['notebook'] while the model at the
    path holds [Demo.on_disk]. *)
Example post_path_converts_the_upload :
  bound_to "notebook" Edited.notebook_doc
           [("config", JStr "{}"); ("notebook", Edited.notebook_doc)] /\
  (exists m, contents_get Demo.srv "foo.ipynb" = inr m /\
             m_content m = Demo.on_disk) /\
  Edited.notebook_doc <> Demo.on_disk /\
  inv_nb <$> invocations (response Edited.lib Demo.srv
                                   (Demo.request_of [] Edited.upload)
                                   (POST_path "html" "/foo.ipynb"))
  = [Edited.notebook_doc].
Proof.
  split; [by repeat constructor |].
  split; [eexists; split; reflexivity |].
  split; [done | reflexivity].
Qed.




(** ** The path-based POST body *)

Lemma post_path_needs_config (L : pylib) (srv : server) (req : request)
    (format path : string) (d : list (string * json)) :
  json_body req = inr (JDict d) ->
  assoc "config" d = None ->
  dispatch L srv req (POST_path format path) fresh
  = (inl (Uncaught
            (TypeError "the JSON object must be str, bytes or bytearray")),
     fresh).
Proof.
  intros Hbody Hnone.
  unfold dispatch, NbconvertFileHandler.post, get_json_body, call_http,
    call, bind, ret, raise.
  rewrite Hbody. cbn. by rewrite Hnone.
Qed.

(** C8 fails on the code.  A path-based POST whose body is
    [{"notebook": {}}] is not converted: the missing ['config'] defaults to
    a dict, which [json.loads] rejects with [TypeError], before the exporter
    or the path is looked at.  The same request with ["config": "{}"] is
    converted. *)
Theorem post_path_without_config_raises :
  dispatch Demo.lib Demo.srv (Demo.request_of [] Demo.upload_no_config)
           (POST_path "html" "/foo.ipynb") fresh
  = (inl (Uncaught
            (TypeError "the JSON object must be str, bytes or bytearray")),
     fresh) /\
  result Demo.lib Demo.srv (Demo.request_of [] Demo.upload)
         (POST_path "html" "/foo.ipynb") = inr tt /\
  finished (response Demo.lib Demo.srv (Demo.request_of [] Demo.upload)
                     (POST_path "html" "/foo.ipynb"))
  = Some (RawBody (PText "<html></html>")).
Proof.
  split; [by apply (post_path_needs_config _ _ _ _ _ [("notebook", Demo.empty_nb)]) |].
  split; reflexivity.
Qed.

(** ** The title on the body route *)

Lemma submit_title (L : pylib) (srv : server) (req : request)
    (format : string) (i : invocation) :
  i ∈ invocations (response L srv req (POST_body format)) ->
  exists name,
    request_name srv req (POST_body format) name /\
    rd_name (inv_resources i) = strip_from_last_dot name.
Proof.
  intros Hin. name_run Hrun.
  run_cases Hrun; the_invocation Hin.
  all: cbn [inv_resources rd_name request_name]; eauto.
Qed.

Example title_of_untitled_ipynb :
  strip_from_last_dot "untitled.ipynb" = "untitled".
Proof. reflexivity. Qed.

Example title_of_default_name :
  rd_name <$> (inv_resources <$>
    invocations (response Demo.lib Demo.srv
                          (Demo.request_of [] Demo.submit_unnamed)
                          (POST_body "html")))
  = ["notebook"].
Proof. reflexivity. Qed.

(** C10 fails on the code.  For the name [untitled], which has no
    extension, the body route passes the title [untitle]:
    [name.rfind('.')] is [-1] and the slice drops the last character, where
    [os.path.splitext], used for the same name in [respond_zip], leaves
    the name whole. *)
Theorem submit_title_drops_last_character :
  Py.rfind "." "untitled" = -1 /\
  rd_name <$> (inv_resources <$>
    invocations (response Demo.lib Demo.srv
                          (Demo.request_of [] (Demo.submit "untitled"))
                          (POST_body "html")))
  = ["untitle"] /\
  fst (Py.splitext "untitled") = "untitled".
Proof. repeat split. Qed.

(** * Further properties *)

(** ** find_resource_files *)

Lemma fs_dir_rect' (P : fs_dir -> Prop) :
  (forall dirs filenames,
      Forall (fun entry => P (snd entry)) dirs -> P (Dir dirs filenames)) ->
  forall d, P d.
Proof.
  intros step. fix IH 1. intros [dirs filenames]. apply step.
  induction dirs as [|[name sub] dirs IHdirs]; constructor.
  - apply IH.
  - exact IHdirs.
Qed.

Lemma walk_files_length (dirpath : string) (d : fs_dir) :
  length (walk_files dirpath d) = count_files d.
Proof.
  revert dirpath. induction d as [dirs filenames IH] using fs_dir_rect'.
  intros dirpath. cbn [walk_files count_files].
  rewrite length_app, length_map. f_equal.
  induction IH as [|[name sub] dirs Hsub _ IHdirs]; [done |].
  cbn [flat_map map list_sum]. rewrite length_app, IHdirs.
  cbn [snd] in Hsub. by rewrite Hsub.
Qed.

Lemma append_assoc (a b c : string) : (a +:+ b) +:+ c = a +:+ (b +:+ c).
Proof.
  induction a as [|x a IH]; [done |].
  exact (f_equal (String x) IH).
Qed.

Lemma chars_append (a b : string) :
  Py.chars (a +:+ b) = (Py.chars a ++ Py.chars b)%list.
Proof.
  induction a as [|x a IH]; [done |].
  change (x :: Py.chars (a +:+ b) = x :: (Py.chars a ++ Py.chars b)%list).
  by rewrite IH.
Qed.

Lemma entry_name_chars (name : string) :
  entry_name name = true ->
  starts_with_sep name = false /\
  Py.chars name <> [] /\
  forall c, In c (Py.chars name) -> Ascii.eqb c "/" = false.
Proof.
  unfold entry_name. intros [Hne Hall]%andb_true_iff.
  rewrite forallb_forall in Hall.
  assert (Hc : forall c, In c (Py.chars name) -> Ascii.eqb c "/" = false).
  { intros c Hin. by apply negb_true_iff, Hall. }
  destruct name as [|c name]; [discriminate |].
  split; [|split; [discriminate | exact Hc]].
  cbn [starts_with_sep]. apply Hc. by left.
Qed.

Lemma path_join_entry (a b : string) :
  Py.truthy a = true -> ends_with_sep a = false -> entry_name b = true ->
  path_join a b = a +:+ "/" +:+ b.
Proof.
  intros Ha Hsep (Hb & _ & _)%entry_name_chars.
  unfold path_join. by rewrite Hb, Ha, Hsep.
Qed.

Lemma path_join_proper (a b : string) :
  Py.truthy a = true -> entry_name b = true ->
  Py.truthy (a +:+ "/" +:+ b) = true /\
  ends_with_sep (a +:+ "/" +:+ b) = false.
Proof.
  intros Ha (_ & Hne & Hc)%entry_name_chars. split.
  - by destruct a.
  - unfold ends_with_sep. rewrite !chars_append, !rev_app_distr.
    destruct (rev (Py.chars b)) as [|c l] eqn:Hrev.
    + apply (f_equal (@rev ascii)) in Hrev. by rewrite rev_involutive in Hrev.
    + cbn [app]. apply Hc, in_rev. rewrite Hrev. by left.
Qed.

Lemma walk_files_lists (dirpath : string) (d : fs_dir) (p : string) :
  entry_names d = true ->
  Py.truthy dirpath = true -> ends_with_sep dirpath = false ->
  p ∈ walk_files dirpath d
  <-> exists rel, file_below d rel /\ p = dirpath +:+ "/" +:+ rel.
Proof.
  revert dirpath p. induction d as [dirs filenames IH] using fs_dir_rect'.
  intros dirpath p Hnames Hne Hsep. cbn [walk_files entry_names] in *.
  apply andb_true_iff in Hnames as [Hfiles Hdirs].
  rewrite forallb_forall in Hfiles, Hdirs. rewrite Forall_forall in IH.
  rewrite elem_of_app. split.
  - intros [Hin | Hin].
    + apply list_elem_of_In, in_map_iff in Hin as (f & <- & Hf).
      exists f. split; [constructor; by apply list_elem_of_In |].
      apply path_join_entry; auto.
    + apply list_elem_of_In, in_flat_map in Hin as ([name sub] & Hentry & Hp).
      pose proof (Hdirs _ Hentry) as [Hname Hsub]%andb_true_iff.
      rewrite (path_join_entry _ _ Hne Hsep Hname) in Hp.
      destruct (path_join_proper _ _ Hne Hname) as [Hne' Hsep'].
      apply list_elem_of_In in Hentry, Hp.
      apply (IH _ Hentry _ _ Hsub Hne' Hsep') in Hp as (rel & Hrel & ->).
      exists (name +:+ "/" +:+ rel). split; [by econstructor |].
      by rewrite !append_assoc.
  - intros (rel & Hrel & ->).
    inversion Hrel as [ds fs0 f Hf | ds fs0 name sub rel' Hentry Hsub];
      subst.
    + left. apply list_elem_of_In, in_map_iff. exists rel.
      apply list_elem_of_In in Hf.
      split; [|done]. apply path_join_entry; auto.
    + right. apply list_elem_of_In, in_flat_map. exists (name, sub).
      pose proof Hentry as Hentry'. apply list_elem_of_In in Hentry'.
      split; [done |].
      pose proof (Hdirs _ Hentry') as [Hname Hnsub]%andb_true_iff.
      rewrite (path_join_entry _ _ Hne Hsep Hname).
      destruct (path_join_proper _ _ Hne Hname) as [Hne' Hsep'].
      apply list_elem_of_In, (IH _ Hentry _ _ Hnsub Hne' Hsep').
      exists rel'. split; [done |]. by rewrite !append_assoc.
Qed.

(** X1.  [find_resource_files] returns the paths of the files at any depth
    below the directory, and nothing else: a path is returned exactly when
    it is the directory's path, a [/], and the [/]-separated path of such a
    file relative to the directory; there is one path for every file and
    none for the directories themselves.  The names on disk are entry
    names, and the directory's path is not empty and does not end in a
    [/]. *)
Theorem find_resource_files_lists (fs : string -> option fs_dir)
    (output_files_dir : string) (d : fs_dir) :
  fs output_files_dir = Some d ->
  entry_names d = true ->
  Py.truthy output_files_dir = true ->
  ends_with_sep output_files_dir = false ->
  (forall p,
      p ∈ find_resource_files fs output_files_dir
      <-> exists rel,
            file_below d rel /\ p = output_files_dir +:+ "/" +:+ rel) /\
  length (find_resource_files fs output_files_dir) = count_files d.
Proof.
  intros Hfs Hnames Hne Hsep. unfold find_resource_files. rewrite Hfs.
  split; [|apply walk_files_length].
  intros p. by apply walk_files_lists.
Qed.

Lemma find_resource_files_lists_witness :
  (forall p,
      p ∈ find_resource_files Disk.fs "foo_files"
      <-> exists rel,
            file_below Disk.foo_files rel /\ p = "foo_files" +:+ "/" +:+ rel) /\
  length (find_resource_files Disk.fs "foo_files") = 3%nat.
Proof.
  exact (find_resource_files_lists Disk.fs "foo_files" Disk.foo_files
           eq_refl eq_refl eq_refl eq_refl).
Defined.

(** Where there is no such directory, nothing is found. *)
Lemma find_resource_files_missing (fs : string -> option fs_dir)
    (output_files_dir : string) :
  fs output_files_dir = None ->
  find_resource_files fs output_files_dir = [].
Proof. intros Hfs. unfold find_resource_files. by rewrite Hfs. Qed.

Example file_below_img_b : file_below Disk.foo_files "img/b.png".
Proof.
  apply (file_deeper _ _ "img" (Dir [] ["a.png"; "b.png"]) "b.png").
  - by left.
  - constructor. by right; left.
Qed.

Lemma path_join_extends (a b : string) :
  starts_with_sep b = false ->
  exists rest, path_join a b = a +:+ rest.
Proof.
  intros Hb. unfold path_join. rewrite Hb.
  case_match; eauto.
Qed.

Lemma walk_files_below (dirpath : string) (d : fs_dir) (p : string) :
  plain_names d = true ->
  p ∈ walk_files dirpath d ->
  exists rest, p = dirpath +:+ rest.
Proof.
  revert dirpath. induction d as [dirs filenames IH] using fs_dir_rect'.
  intros dirpath Hnames Hin. cbn [walk_files plain_names] in Hnames, Hin.
  apply andb_true_iff in Hnames as [Hfiles Hdirs].
  apply elem_of_app in Hin as [Hin | Hin].
  - apply list_elem_of_In, in_map_iff in Hin as (f & <- & Hf).
    rewrite forallb_forall in Hfiles. specialize (Hfiles f Hf).
    apply negb_true_iff in Hfiles. by apply path_join_extends.
  - apply list_elem_of_In, in_flat_map in Hin as ([name sub] & Hentry & Hp).
    rewrite forallb_forall in Hdirs. specialize (Hdirs _ Hentry).
    apply andb_true_iff in Hdirs as [Hname Hsub].
    apply negb_true_iff in Hname.
    rewrite Forall_forall in IH.
    apply list_elem_of_In in Hentry, Hp.
    destruct (IH _ Hentry (path_join dirpath name) Hsub Hp) as [rest ->].
    destruct (path_join_extends dirpath name Hname) as [rest' ->].
    exists (rest' +:+ rest). apply append_assoc.
Qed.

(** X2.  Every path [find_resource_files] returns lies below the directory
    it was given: it is that directory's path followed by the rest, as long
    as the names on disk are plain entry names. *)
Theorem find_resource_files_below (fs : string -> option fs_dir)
    (output_files_dir : string) (d : fs_dir) (p : string) :
  fs output_files_dir = Some d ->
  plain_names d = true ->
  p ∈ find_resource_files fs output_files_dir ->
  exists rest, p = output_files_dir +:+ rest.
Proof.
  intros Hfs Hnames. unfold find_resource_files. rewrite Hfs.
  by apply walk_files_below.
Qed.

Lemma find_resource_files_below_witness :
  "foo_files/img/b.png" ∈ find_resource_files Disk.fs "foo_files" /\
  exists rest, "foo_files/img/b.png" = "foo_files" +:+ rest.
Proof.
  assert (Hin : "foo_files/img/b.png"
                  ∈ find_resource_files Disk.fs "foo_files")
    by (vm_compute; repeat constructor).
  split; [exact Hin |].
  exact (find_resource_files_below Disk.fs "foo_files" Disk.foo_files
           "foo_files/img/b.png" eq_refl eq_refl Hin).
Defined.

Example find_resource_files_walk :
  find_resource_files Disk.fs "foo_files"
  = ["foo_files/style.css"; "foo_files/img/a.png"; "foo_files/img/b.png"].
Proof. reflexivity. Qed.

(** ** Titles cut at the last dot *)

Lemma rfind_from_bounds (c : ascii) (l : list ascii) (i last : Z) :
  last < i ->
  last <= Py.rfind_from c l i last < i + Z.of_nat (length l).
Proof.
  revert i last. induction l as [|x l IH]; intros i last Hlt; simpl.
  - lia.
  - destruct (Ascii.eqb x c).
    + specialize (IH (i + 1) i). lia.
    + specialize (IH (i + 1) last). lia.
Qed.

Lemma chars_length (s : string) :
  length (Py.chars s) = String.length s.
Proof.
  unfold Py.chars. induction s as [|c s IH]; simpl; [done | by rewrite IH].
Qed.

Lemma rfind_bounds (c : ascii) (s : string) :
  -1 <= Py.rfind c s < Py.len s.
Proof.
  unfold Py.rfind, Py.len. rewrite <- chars_length.
  pose proof (rfind_from_bounds c (Py.chars s) 0 (-1)). lia.
Qed.

Lemma str_length (l : list ascii) : String.length (Py.str l) = length l.
Proof.
  unfold Py.str. induction l as [|c l IH]; simpl; [done | by rewrite IH].
Qed.

Lemma slice_to_length (s : string) (k : Z) :
  String.length (Py.slice_to s k) = Py.clamp (Py.len s) k.
Proof.
  unfold Py.slice_to. rewrite str_length, length_take, chars_length.
  unfold Py.clamp, Py.len. case_match; lia.
Qed.

(** X3.  The title the body route computes, [name[:name.rfind('.')]], is
    always a proper prefix of a non-empty name: it stops before the last
    dot, and when the name has no dot it is the name without its last
    character. *)
Theorem strip_from_last_dot_cuts (name : string) :
  name <> EmptyString ->
  strip_from_last_dot name +:+ Py.slice_from name (Py.rfind "." name) = name /\
  (String.length (strip_from_last_dot name) < String.length name)%nat /\
  (Py.rfind "." name = -1 ->
   S (String.length (strip_from_last_dot name)) = String.length name) /\
  (0 <= Py.rfind "." name ->
   Z.of_nat (String.length (strip_from_last_dot name)) = Py.rfind "." name).
Proof.
  intros Hne. unfold strip_from_last_dot.
  split; [apply slice_join |].
  rewrite slice_to_length. unfold Py.clamp.
  pose proof (rfind_bounds "." name) as Hb. unfold Py.len in *.
  assert (0 < String.length name)%nat by (destruct name; [done | simpl; lia]).
  repeat split; intros; case_match; lia.
Qed.

Lemma strip_from_last_dot_cuts_witness :
  "untitled" <> EmptyString /\
  (String.length (strip_from_last_dot "untitled") < String.length "untitled")%nat /\
  S (String.length (strip_from_last_dot "untitled")) = String.length "untitled".
Proof.
  assert (Hne : "untitled" <> EmptyString) by discriminate.
  destruct (strip_from_last_dot_cuts "untitled" Hne) as (_ & Hlt & Hno & _).
  exact (conj Hne (conj Hlt (Hno eq_refl))).
Defined.

(** ** Slashes around the path *)

Lemma lstrip_chars_idem (c : ascii) (l : list ascii) :
  Py.lstrip_chars c (Py.lstrip_chars c l) = Py.lstrip_chars c l.
Proof.
  induction l as [|x l IH]; simpl; [done |].
  destruct (Ascii.eqb x c) eqn:E; [done |]. simpl. by rewrite E.
Qed.

Lemma lstrip_chars_snoc (c x : ascii) (l : list ascii) :
  Ascii.eqb x c = false ->
  Py.lstrip_chars c (l ++ [x])%list = (Py.lstrip_chars c l ++ [x])%list.
Proof.
  intros Hx. induction l as [|y l IH]; simpl.
  - by rewrite Hx.
  - by destruct (Ascii.eqb y c).
Qed.

Lemma rstrip_chars_idem (c : ascii) (l : list ascii) :
  Py.rstrip_chars c (Py.rstrip_chars c l) = Py.rstrip_chars c l.
Proof.
  unfold Py.rstrip_chars. by rewrite rev_involutive, lstrip_chars_idem.
Qed.

Lemma lstrip_chars_fixed (c : ascii) (l : list ascii) :
  Py.lstrip_chars c l = l ->
  Py.lstrip_chars c (Py.rstrip_chars c l) = Py.rstrip_chars c l.
Proof.
  destruct l as [|x l]; [done |]. simpl.
  destruct (Ascii.eqb x c) eqn:E.
  - intros Hfix. exfalso.
    assert (Hlen : forall l', (length (Py.lstrip_chars c l') <= length l')%nat).
    { clear. induction l' as [|y l' IH]; simpl; [lia |].
      destruct (Ascii.eqb y c); simpl; lia. }
    specialize (Hlen l). rewrite Hfix in Hlen. simpl in Hlen. lia.
  - intros _. unfold Py.rstrip_chars. simpl.
    rewrite lstrip_chars_snoc by done.
    rewrite rev_app_distr. simpl. by rewrite E.
Qed.

Lemma strip_idem (c : ascii) (s : string) :
  Py.strip c (Py.strip c s) = Py.strip c s.
Proof.
  unfold Py.strip, Py.chars, Py.str.
  rewrite list_ascii_of_string_of_list_ascii.
  rewrite lstrip_chars_fixed by apply lstrip_chars_idem.
  by rewrite rstrip_chars_idem.
Qed.

(** X4.  Leading and trailing slashes of the requested path do not matter:
    the path-based routes answer a path and the same path with the slashes
    at its ends removed alike. *)
Theorem path_end_slashes_ignored (L : pylib) (srv : server) (req : request)
    (format path : string) :
  dispatch L srv req (GET_path format path)
  = dispatch L srv req (GET_path format (Py.strip "/" path)) /\
  dispatch L srv req (POST_path format path)
  = dispatch L srv req (POST_path format (Py.strip "/" path)).
Proof.
  split; cbn [dispatch];
    unfold NbconvertFileHandler.get, NbconvertFileHandler.post,
      NbconvertFileHandler.call_nbconvert;
    by rewrite strip_idem.
Qed.

(** ** get_exporter *)

(** X5.  [get_exporter] answers HTTP 404 exactly when the engine imports
    and the format is absent from its registry. *)
Theorem get_exporter_404_iff (srv : server) (format : string) (cfg : config)
    (st : hstate) :
  (exists msg, fst (get_exporter srv format cfg st) = inl (HTTPError 404 msg))
  <-> unregistered srv format.
Proof.
  split.
  - intros [msg H]. unfold get_exporter, unregistered in *.
    destruct (nbconvert_base srv) as [e|e|reg]; [discriminate.. |].
    exists reg. split; [done |].
    destruct (reg format) as [|e|cls]; [done | discriminate |].
    destruct (construct cls cfg); discriminate.
  - intros H. eexists. by rewrite get_exporter_unregistered.
Qed.

(** X6.  [get_exporter] turns two failures of the engine into an
    [HTTPError]: an [ImportError] on import into status 500 and a
    [KeyError] of the lookup into status 404.  Any other exception of the
    import or of the lookup escapes as it is.  A failure to construct the
    exporter class is logged and becomes status 500.  Otherwise the
    exporter is returned.  In every case the headers, the body, the
    redirect and the conversions are left as they were, and the log grows
    only by the construction failure. *)
Theorem get_exporter_outcomes (srv : server) (format : string) (cfg : config)
    (st : hstate) :
  let run := get_exporter srv format cfg st in
  headers (snd run) = headers st /\
  finished (snd run) = finished st /\
  redirected (snd run) = redirected st /\
  invocations (snd run) = invocations st /\
  match fst run with
  | inr ex => resolves srv format cfg ex /\ snd run = st
  | inl (HTTPError status msg) =>
      (exists e,
         nbconvert_base srv = import_error e /\
         status = 500 /\
         msg = "Could not import nbconvert: " +:+ exc_str e /\
         snd run = st) \/
      (unregistered srv format /\
       status = 404 /\
       msg = "No exporter for format: " +:+ format /\
       snd run = st) \/
      (exists reg cls e,
         nbconvert_base srv = imported reg /\
         reg format = exporter_found cls /\
         construct cls cfg = inl e /\
         status = 500 /\
         msg = "Could not construct Exporter: " +:+ exc_str e /\
         log (snd run)
           = (log st ++ ["Could not construct Exporter: " +:+ class_name cls])%list)
  | inl (Uncaught e) =>
      (nbconvert_base srv = import_raises e \/
       exists reg,
         nbconvert_base srv = imported reg /\ reg format = lookup_raises e) /\
      snd run = st
  end.
Proof.
  unfold get_exporter, resolves, unregistered.
  destruct (nbconvert_base srv) as [e|e|reg] eqn:Hbase; cbn.
  { repeat split; auto. left. by exists e. }
  { repeat split; auto. }
  destruct (reg format) as [|e|cls] eqn:Hcls; cbn.
  { repeat split; auto. right; left. repeat split; eauto. }
  { repeat split; eauto. }
  destruct (construct cls cfg) as [e|ex] eqn:Hex; cbn.
  - repeat split; auto. right; right. by exists reg, cls, e.
  - repeat split; eauto.
Qed.

(** An exception of the engine that is neither an [ImportError] nor a
    [KeyError] is not caught: it ends the request as it is, on every
    route that resolves the exporter first. *)
Example engine_fault_escapes :
  fst (get_exporter Edited.srv "broken" (JDict []) fresh)
  = inl (Uncaught (mk_exc "ValueError" "entry point failed to load")) /\
  fst (get_exporter Edited.srv_import_raises "html" (JDict []) fresh)
  = inl (Uncaught (mk_exc "SyntaxError" "invalid syntax")) /\
  dispatch Demo.lib Edited.srv Demo.plain (GET_path "broken" "/foo.ipynb")
           fresh
  = (inl (Uncaught (mk_exc "ValueError" "entry point failed to load")),
     fresh).
Proof. repeat split. Qed.

(** ** What every request does *)

(** X7.  No request converts twice: the exporter is invoked at most once,
    whatever the route and the outcome. *)
Theorem at_most_one_invocation (L : pylib) (srv : server) (req : request)
    (r : route) :
  (length (invocations (response L srv req r)) <= 1)%nat.
Proof.
  name_run Hrun. destruct r; run_cases Hrun; cbn; lia.
Qed.

(** X8.  A request gets one response.  When the handler returns normally it
    has either written a body or redirected, not both; when it raises, it
    has done neither.  A redirect only happens on the path routes, and then
    nothing was converted. *)
Theorem one_response (L : pylib) (srv : server) (req : request) (r : route) :
  match result L srv req r with
  | inr _ =>
      (is_Some (finished (response L srv req r)) /\
       redirected (response L srv req r) = None /\
       length (invocations (response L srv req r)) = 1%nat) \/
      (finished (response L srv req r) = None /\
       is_Some (redirected (response L srv req r)) /\
       invocations (response L srv req r) = [] /\
       is_Some (route_path r))
  | inl _ =>
      finished (response L srv req r) = None /\
      redirected (response L srv req r) = None
  end.
Proof.
  name_run Hrun. destruct r; run_cases Hrun; cbn.
  all: try (split; reflexivity).
  all: try (left; split; [by eexists | split; reflexivity]).
  all: right; repeat split; by eexists.
Qed.

(** ** Headers of the two response shapes *)

(** X9.  Every zip response, on every route, is an attachment named
    [<title>.zip], URL-escaped: the name does not depend on the exporter's
    own extension nor on the [download] argument. *)
Theorem zip_disposition (L : pylib) (srv : server) (req : request)
    (r : route) (i : invocation) (out : payload) (rs : resources) :
  i ∈ invocations (response L srv req r) ->
  inv_result i = inr (out, rs) ->
  truthy_outputs (outputs rs) = true ->
  exists name,
    request_name srv req r name /\
    headers (response L srv req r) !! "Content-Disposition"
    = Some ("attachment; filename=" +:+ dquote +:+
            url_escape L (fst (Py.splitext name) +:+ ".zip") +:+ dquote).
Proof.
  intros Hin Hres Hzip. name_run Hrun.
  destruct r; run_cases Hrun; the_invocation Hin;
    cbn [inv_result] in Hres; simplify_eq.
  all: outputs_truth; try congruence.
  all: cbn [request_name]; eexists; (split; [eauto |]).
  all: by lookup_headers.
Qed.

Lemma zip_disposition_witness :
  Demo.call_of Demo.latex Demo.on_disk Demo.foo_resources
    ∈ invocations (response Demo.lib Demo.srv
                            (Demo.request_of [("download", "false")] JNull)
                            (GET_path "latex" "/foo.ipynb")) /\
  exists name,
    request_name Demo.srv (Demo.request_of [("download", "false")] JNull)
                 (GET_path "latex" "/foo.ipynb") name /\
    headers (response Demo.lib Demo.srv
                      (Demo.request_of [("download", "false")] JNull)
                      (GET_path "latex" "/foo.ipynb")) !! "Content-Disposition"
    = Some ("attachment; filename=" +:+ dquote +:+
            url_escape Demo.lib (fst (Py.splitext name) +:+ ".zip") +:+ dquote).
Proof.
  assert (Hin : Demo.call_of Demo.latex Demo.on_disk Demo.foo_resources
    ∈ invocations (response Demo.lib Demo.srv
                            (Demo.request_of [("download", "false")] JNull)
                            (GET_path "latex" "/foo.ipynb")))
    by (vm_compute; constructor).
  split; [exact Hin |].
  exact (zip_disposition Demo.lib Demo.srv
           (Demo.request_of [("download", "false")] JNull)
           (GET_path "latex" "/foo.ipynb") _ _ _ Hin eq_refl eq_refl).
Defined.

(** Replace the exporter resolution and the body decoding of a run by
    what the hypotheses say they give. *)
Ltac resolved_run Hrun Hcfg Hex :=
  match type of Hrun with
  | dispatch _ _ _ ?r _ = _ =>
      destruct r; cbn [route_config route_format dispatch] in Hcfg, Hex, Hrun;
      [ subst; unfold NbconvertFileHandler.get in Hrun
      | destruct Hcfg as [? Hcfg];
        rewrite (post_decodes _ _ _ _ _ _ _ _ Hcfg) in Hrun
      | subst; unfold NbconvertPostHandler.post in Hrun ];
      try unfold NbconvertFileHandler.call_nbconvert in Hrun;
      unfold bind at 1 in Hrun;
      rewrite (get_exporter_resolves _ _ _ _ _ Hex) in Hrun
  end.

(** X10.  A response that is not a zip carries the exporter's MIME type with
    [; charset=utf-8] appended as its Content-Type.  When the exporter
    declares no MIME type the handler sets none, and the Content-Type the
    response started with, the framework's default, stays. *)
Theorem raw_content_type (L : pylib) (srv : server) (req : request)
    (r : route) (h0 : gmap string string) (cfg : config) (ex : exporter)
    (i : invocation) (out : payload) (rs : resources) :
  route_config L srv req r cfg ->
  resolves srv (route_format r) cfg ex ->
  i ∈ invocations (response_from L srv req r h0) ->
  inv_result i = inr (out, rs) ->
  outputs rs = None \/ outputs rs = Some [] ->
  headers (response_from L srv req r h0) !! "Content-Type"
  = if String.eqb (output_mimetype ex) EmptyString
    then h0 !! "Content-Type"
    else Some (output_mimetype ex +:+ "; charset=utf-8").
Proof.
  intros Hcfg Hex Hin Hres Hraw%truthy_outputs_empty. name_run Hrun.
  resolved_run Hrun Hcfg Hex.
  all: run_cases Hrun; the_invocation Hin;
    cbn [inv_result] in Hres; simplify_eq.
  all: outputs_truth; try congruence.
  all: lookup_headers.
  all: by destruct (output_mimetype ex).
Qed.

Lemma raw_content_type_witness :
  headers (response_from Demo.lib Edited.srv Demo.plain
                         (GET_path "html" "/foo.ipynb") framework_headers)
    !! "Content-Type"
  = Some "text/html; charset=utf-8" /\
  headers (response_from Demo.lib Edited.srv Demo.plain
                         (GET_path "bare" "/foo.ipynb") framework_headers)
    !! "Content-Type"
  = Some "text/html; charset=UTF-8".
Proof.
  assert (Hhtml : resolves Edited.srv "html" (JDict []) Demo.html).
  { eexists Edited.engine, _. repeat split; reflexivity. }
  assert (Hbare : resolves Edited.srv "bare" (JDict []) Edited.bare).
  { eexists Edited.engine, _. repeat split; reflexivity. }
  split.
  - refine (raw_content_type Demo.lib Edited.srv Demo.plain
              (GET_path "html" "/foo.ipynb") framework_headers (JDict [])
              Demo.html
              (Demo.call_of Demo.html Demo.on_disk Demo.foo_resources)
              _ _ eq_refl Hhtml _ eq_refl (or_introl eq_refl)).
    vm_compute; constructor.
  - refine (raw_content_type Demo.lib Edited.srv Demo.plain
              (GET_path "bare" "/foo.ipynb") framework_headers (JDict [])
              Edited.bare
              (Demo.call_of Edited.bare Demo.on_disk Demo.foo_resources)
              _ _ eq_refl Hbare _ eq_refl (or_introl eq_refl)).
    vm_compute; constructor.
Defined.

(** ** What the exporter is handed *)







(** The submitted document is what the exporter gets, under the title cut
    from the submitted name. *)
Example submit_converts_the_draft :
  bound_to "content" Edited.notebook_doc
           [("name", JStr "draft.ipynb"); ("content", Edited.notebook_doc)] /\
  invocations (response Demo.lib Demo.srv (Demo.request_of [] Edited.submit)
                        (POST_body "html"))
  = [Demo.call_of Demo.html Edited.notebook_doc
                  (Demo.submit_resources "draft")].
Proof. split; [by repeat constructor | reflexivity]. Qed.

(** ** Failures before the conversion *)

(** X14.  On every route, when the exporter cannot be resolved the request
    ends with the very error [get_exporter] raised and the state it left:
    the storage is not read, nothing is converted and no header is set. *)
Theorem resolution_failure_is_the_response (L : pylib) (srv : server)
    (req : request) (r : route) (cfg : config) (e : raised) (st : hstate) :
  route_config L srv req r cfg ->
  get_exporter srv (route_format r) cfg fresh = (inl e, st) ->
  dispatch L srv req r fresh = (inl e, st).
Proof.
  intros Hcfg Hget.
  destruct r; cbn [route_config route_format dispatch] in *.
  - subst. unfold NbconvertFileHandler.get,
      NbconvertFileHandler.call_nbconvert, bind. by rewrite Hget.
  - destruct Hcfg as [nbc Hdec]. rewrite (post_decodes _ _ _ _ _ _ _ _ Hdec).
    unfold NbconvertFileHandler.call_nbconvert, bind. by rewrite Hget.
  - subst. unfold NbconvertPostHandler.post, bind. by rewrite Hget.
Qed.

Lemma resolution_failure_is_the_response_witness :
  dispatch Demo.lib Demo.srv Demo.plain (GET_path "unbuildable" "/foo.ipynb")
           fresh
  = (inl (HTTPError 500 "Could not construct Exporter: bad trait"),
     {| headers := ∅; finished := None; redirected := None;
        log := ["Could not construct Exporter: Unbuildable"];
        invocations := [] |}).
Proof.
  exact (resolution_failure_is_the_response Demo.lib Demo.srv Demo.plain
           (GET_path "unbuildable" "/foo.ipynb") (JDict []) _ _
           eq_refl eq_refl).
Defined.

(** X15.  On the path routes, an error of the contents manager (a missing
    path, say) is the response as it stands: once the exporter is resolved,
    the handler passes it on with no header set and nothing converted. *)
Theorem storage_error_propagates (L : pylib) (srv : server) (req : request)
    (r : route) (path : string) (cfg : config) (ex : exporter) (e : raised) :
  route_path r = Some path ->
  route_config L srv req r cfg ->
  resolves srv (route_format r) cfg ex ->
  contents_get srv (Py.strip "/" path) = inl e ->
  dispatch L srv req r fresh = (inl e, fresh).
Proof.
  intros Hpath Hcfg Hex Hget.
  assert (Hcall : forall content,
    NbconvertFileHandler.call_nbconvert L srv req (route_format r) path cfg
      content fresh = (inl e, fresh)).
  { intros content. unfold NbconvertFileHandler.call_nbconvert, bind.
    rewrite (get_exporter_resolves _ _ _ _ _ Hex).
    unfold call_http, raise. by rewrite Hget. }
  destruct r; cbn in Hpath, Hcfg, Hcall; simplify_eq; cbn [dispatch].
  - apply Hcall.
  - destruct Hcfg as [nbc Hdec]. rewrite (post_decodes _ _ _ _ _ _ _ _ Hdec).
    apply Hcall.
Qed.

Lemma storage_error_propagates_witness :
  resolves Demo.srv "html" (JDict []) Demo.html /\
  dispatch Demo.lib Demo.srv Demo.plain (GET_path "html" "/missing.ipynb")
           fresh
  = (inl (HTTPError 404 "No such file or directory: missing.ipynb"), fresh).
Proof.
  assert (Hex : resolves Demo.srv "html" (JDict []) Demo.html).
  { eexists (of_registry Demo.registry), _. repeat split; reflexivity. }
  split; [exact Hex |].
  exact (storage_error_propagates Demo.lib Demo.srv Demo.plain
           (GET_path "html" "/missing.ipynb") "/missing.ipynb" (JDict [])
           Demo.html _ eq_refl eq_refl Hex eq_refl).
Defined.

(** X16.  A path-based POST whose body the handler cannot decode fails
    before anything else happens, whatever the engine and the storage
    would do, and leaves the handler as it was.  The error is the one the
    failing step raises: the error of the body parser itself; an
    [AttributeError] for a body that is no object; a [TypeError] when the
    object has no ['config'] or holds anything but text there; the
    parser's error for a ['config'] text that is no JSON; the error of the
    merge for a configuration that does not merge; and a [KeyError] for an
    object with no ['notebook']. *)
Theorem post_path_undecoded_body (L : pylib) (srv : server) (req : request)
    (format path : string) :
  let run := dispatch L srv req (POST_path format path) fresh in
  (forall e, json_body req = inl e -> run = (inl e, fresh)) /\
  (forall body,
      json_body req = inr body -> (forall d, body <> JDict d) ->
      exists msg, run = (inl (Uncaught (mk_exc "AttributeError" msg)), fresh)) /\
  (forall d,
      json_body req = inr (JDict d) ->
      (unbound "config" d \/
       (exists v, bound_to "config" v d /\ forall text, v <> JStr text) ->
       exists msg, run = (inl (Uncaught (mk_exc "TypeError" msg)), fresh)) /\
      (forall text,
          bound_to "config" (JStr text) d ->
          (forall e, json_loads_text L text = inl e ->
                     run = (inl (Uncaught e), fresh)) /\
          (forall json_config,
              json_loads_text L text = inr json_config ->
              (forall e,
                  config_merge L (self_config srv) json_config = inl e ->
                  run = (inl (Uncaught e), fresh)) /\
              (forall c,
                  config_merge L (self_config srv) json_config = inr c ->
                  unbound "notebook" d ->
                  run = (inl (Uncaught (mk_exc "KeyError" "notebook")),
                         fresh))))).
Proof.
  cbn zeta. unfold dispatch, NbconvertFileHandler.post,
    get_json_body, call_http, call, bind, ret, raise.
  split; [by intros e -> |].
  split.
  { intros body -> Hbody. destruct body; try by eexists.
    by edestruct Hbody. }
  intros d ->. cbn [py_get py_getitem]. split.
  { intros [Hno%assoc_unbound | (v & Hv%assoc_bound & Hnot)].
    - rewrite Hno. by eexists.
    - rewrite Hv. destruct v; try by eexists. by edestruct Hnot. }
  intros text Htext%assoc_bound. rewrite Htext. cbn [json_loads].
  split; [by intros e -> |].
  intros json_config ->. split; [by intros e -> |].
  intros c -> Hno%assoc_unbound. by rewrite Hno.
Qed.

Lemma post_path_undecoded_body_witness :
  dispatch Demo.lib Demo.srv (Demo.request_of [] Demo.upload_no_notebook)
           (POST_path "html" "/foo.ipynb") fresh
  = (inl (Uncaught (mk_exc "KeyError" "notebook")), fresh) /\
  (exists msg,
      dispatch Demo.lib Demo.srv (Demo.request_of [] Demo.upload_no_config)
               (POST_path "html" "/foo.ipynb") fresh
      = (inl (Uncaught (mk_exc "TypeError" msg)), fresh)) /\
  (exists msg,
      dispatch Demo.lib Demo.srv (Demo.request_of [] (JNum 7))
               (POST_path "html" "/foo.ipynb") fresh
      = (inl (Uncaught (mk_exc "AttributeError" msg)), fresh)).
Proof.
  split; [|split].
  - destruct (post_path_undecoded_body Demo.lib Demo.srv
                (Demo.request_of [] Demo.upload_no_notebook)
                "html" "/foo.ipynb") as (_ & _ & Hobj).
    destruct (Hobj _ eq_refl) as [_ Hconfig].
    destruct (Hconfig "{}" (bound_here _ _ _)) as [_ Hjson].
    destruct (Hjson (JDict []) eq_refl) as [_ Hnb].
    apply (Hnb (JDict []) eq_refl). repeat constructor; discriminate.
  - destruct (post_path_undecoded_body Demo.lib Demo.srv
                (Demo.request_of [] Demo.upload_no_config)
                "html" "/foo.ipynb") as (_ & _ & Hobj).
    destruct (Hobj _ eq_refl) as [Htype _].
    apply Htype. left. repeat constructor; discriminate.
  - destruct (post_path_undecoded_body Demo.lib Demo.srv
                (Demo.request_of [] (JNum 7))
                "html" "/foo.ipynb") as (_ & Hbody & _).
    apply (Hbody (JNum 7) eq_refl). discriminate.
Defined.



(** X18.  On the body route, a ['name'] that is not text is answered with
    HTTP 500 "nbconvert failed": the title is computed inside the [try], so
    the failure is caught, and the exporter is never invoked. *)
Theorem submit_name_not_text (L : pylib) (srv : server) (req : request)
    (format : string) (ex : exporter) (body name content : json) :
  resolves srv format (self_config srv) ex ->
  json_body req = inr body ->
  py_get body "name" (JStr "notebook.ipynb") = inr name ->
  (forall s, name <> JStr s) ->
  py_getitem body "content" = inr content ->
  exists msg,
    dispatch L srv req (POST_body format) fresh
    = (inl (HTTPError 500 ("nbconvert failed: " +:+ msg)), fresh).
Proof.
  intros Hex Hbody Hname Hnot Hcontent.
  unfold dispatch, NbconvertPostHandler.post, bind.
  rewrite (get_exporter_resolves _ _ _ _ _ Hex).
  unfold get_json_body, call_http, call, ret, raise.
  rewrite Hbody, Hname, Hcontent.
  destruct name; try by eexists.
  by destruct (Hnot s).
Qed.

Lemma submit_name_not_text_witness :
  resolves Demo.srv "html" (JDict []) Demo.html /\
  exists msg,
    dispatch Demo.lib Demo.srv
      (Demo.request_of [] (JDict [("content", Demo.empty_nb);
                                  ("name", JNum 7)]))
      (POST_body "html") fresh
    = (inl (HTTPError 500 ("nbconvert failed: " +:+ msg)), fresh).
Proof.
  assert (Hex : resolves Demo.srv "html" (JDict []) Demo.html).
  { eexists (of_registry Demo.registry), _. repeat split; reflexivity. }
  split; [exact Hex |].
  refine (submit_name_not_text Demo.lib Demo.srv
            (Demo.request_of [] (JDict [("content", Demo.empty_nb);
                                        ("name", JNum 7)]))
            "html" Demo.html _ (JNum 7) Demo.empty_nb
            Hex eq_refl eq_refl _ eq_refl).
  discriminate.
Defined.

(** ** respond_zip and the rest of the handler *)

(** X19.  [respond_zip] touches only the [Content-Type] and
    [Content-Disposition] headers and the body: every other header (the
    [Last-Modified] set before it), the log, the redirect and the trace are
    as they were, whether or not it serves a zip. *)
Theorem respond_zip_frame (L : pylib) (name : string) (output : payload)
    (rs : resources) (st : hstate) (k : string) :
  k <> "Content-Type" ->
  k <> "Content-Disposition" ->
  let st' := snd (respond_zip L name output rs st) in
  headers st' !! k = headers st !! k /\
  log st' = log st /\
  redirected st' = redirected st /\
  invocations st' = invocations st.
Proof.
  intros Hct Hcd. unfold respond_zip.
  destruct (negb (truthy_outputs (outputs rs))); cbn; [done |].
  unfold bind, set_header, call, finish, ret, raise.
  destruct (writestr _ _ _ _) as [e|zipf]; cbn;
    [by rewrite !lookup_insert_ne by done |].
  destruct (writestr_each _ _ _) as [e|zipf']; cbn;
    by rewrite !lookup_insert_ne by done.
Qed.

Lemma respond_zip_frame_witness :
  headers (snd (respond_zip Demo.lib "foo.ipynb" (PText "x")
                  {| output_extension := ".tex";
                     outputs := Some [("a.png", Demo.img1)] |}
                  (snd (set_header "Last-Modified" "now" fresh))))
    !! "Last-Modified"
  = Some "now".
Proof.
  destruct (respond_zip_frame Demo.lib "foo.ipynb" (PText "x")
              {| output_extension := ".tex";
                 outputs := Some [("a.png", Demo.img1)] |}
              (snd (set_header "Last-Modified" "now" fresh))
              "Last-Modified") as [H _]; [discriminate | discriminate |].
  exact H.
Defined.

(** ** Status codes *)

(** X20.  The handlers raise HTTP errors of their own with two statuses
    only: 404, and only for a format absent from the registry, and 500.
    Any other [HTTPError] a request ends with was raised by the contents
    manager for the path, or by the decoding of the request body. *)
Theorem statuses_raised (L : pylib) (srv : server) (req : request)
    (r : route) (status : Z) (msg : string) :
  result L srv req r = inl (HTTPError status msg) ->
  (status = 404 /\ unregistered srv (route_format r)) \/
  status = 500 \/
  json_body req = inl (HTTPError status msg) \/
  (exists path, route_path r = Some path /\
     contents_get srv (Py.strip "/" path) = inl (HTTPError status msg)).
Proof.
  intros Hres. name_run Hrun. unfold unregistered.
  destruct r; run_cases Hrun; simplify_eq; cbn [route_format route_path].
  all: first
         [ right; left; reflexivity
         | left; split; [reflexivity | by eexists]
         | right; right; left; done
         | right; right; right; eexists; split; [reflexivity | done] ].
Qed.

Lemma statuses_raised_witness :
  result Demo.lib Demo.srv Demo.plain (GET_path "docx" "/foo.ipynb")
    = inl (HTTPError 404 "No exporter for format: docx") /\
  ((404 = 404 /\ unregistered Demo.srv "docx") \/
   404 = 500 \/
   json_body Demo.plain
     = inl (HTTPError 404 "No exporter for format: docx") \/
   (exists path, route_path (GET_path "docx" "/foo.ipynb") = Some path /\
      contents_get Demo.srv (Py.strip "/" path)
      = inl (HTTPError 404 "No exporter for format: docx"))).
Proof.
  split; [reflexivity |].
  exact (statuses_raised Demo.lib Demo.srv Demo.plain
           (GET_path "docx" "/foo.ipynb") 404
           "No exporter for format: docx" eq_refl).
Defined.

(** ** The query arguments *)

(** Replay a second run along the case equations of the first. *)
Ltac replay H :=
  repeat (reduce_in H;
          match goal with
          | E : ?x = _ |- _ =>
              tryif constr_eq E H then fail else rewrite E in H
          end);
  reduce_in H.

(** X21.  The query arguments of a request bear on one thing only: two
    requests with the same body get, on every route, the same outcome, the
    same body, the same exporter call and the same log, and the same
    headers but for [Content-Disposition]. *)
Theorem arguments_only_reach_disposition (L : pylib) (srv : server)
    (req req' : request) (r : route) (k : string) :
  json_body req' = json_body req ->
  k <> "Content-Disposition" ->
  result L srv req' r = result L srv req r /\
  finished (response L srv req' r) = finished (response L srv req r) /\
  redirected (response L srv req' r) = redirected (response L srv req r) /\
  invocations (response L srv req' r) = invocations (response L srv req r) /\
  log (response L srv req' r) = log (response L srv req r) /\
  headers (response L srv req' r) !! k = headers (response L srv req r) !! k.
Proof.
  intros Hbody Hk. unfold response, result.
  destruct (dispatch L srv req r fresh) as [res st] eqn:Hrun.
  destruct (dispatch L srv req' r fresh) as [res' st'] eqn:Hrun'.
  cbn [fst snd].
  destruct r; unfold_handlers Hrun'; unfold fresh in Hrun';
    try rewrite Hbody in Hrun'; run_cases Hrun; replay Hrun';
    repeat case_in Hrun'; injection Hrun' as <- <-.
  all: cbn [finished redirected invocations log headers].
  all: repeat split.
  all: rewrite ?lookup_insert; repeat case_decide; congruence.
Qed.

Lemma arguments_only_reach_disposition_witness :
  result Demo.lib Demo.srv Demo.plain (GET_path "html" "/foo.ipynb")
    = result Demo.lib Demo.srv
             (Demo.request_of [("download", "true")] JNull)
             (GET_path "html" "/foo.ipynb") /\
  headers (response Demo.lib Demo.srv Demo.plain
                    (GET_path "html" "/foo.ipynb")) !! "Content-Type"
    = headers (response Demo.lib Demo.srv
                        (Demo.request_of [("download", "true")] JNull)
                        (GET_path "html" "/foo.ipynb")) !! "Content-Type".
Proof.
  destruct (arguments_only_reach_disposition Demo.lib Demo.srv
              (Demo.request_of [("download", "true")] JNull) Demo.plain
              (GET_path "html" "/foo.ipynb") "Content-Type")
    as (Hres & _ & _ & _ & _ & Hhdr); [reflexivity | discriminate |].
  exact (conj Hres Hhdr).
Defined.
